(** * gipstuff: the GIP packet codec and session loop of [gip.py]

    A shallow embedding of [gip.py].  Python integers are modelled as [Z]
    (arbitrary precision, with [&], [|], [<<] as [Z.land], [Z.lor],
    [Z.shiftl]), Python lists of integers as [list Z], strings as [string].
    Code that can raise runs in the [result] monad; the mutable [Seq]
    object and the locals of [main] are threaded explicitly. *)

From Stdlib Require Import ZArith String Ascii List Lia Bool.
From Stdlib Require DecimalString HexadecimalString.
From stdpp Require Import base list.
Import ListNotations.

Local Open Scope Z_scope.

(** ** Exceptions *)

(** The exceptions the modelled code can raise. *)
Inductive exn : Set :=
| IndexError
| ValueError
| TypeError
| OverflowError.

Inductive result (A : Type) : Type :=
| Ok (a : A)
| Raise (e : exn).

Arguments Ok {A} a.
Arguments Raise {A} e.

#[global] Instance result_ret : MRet result := fun _ a => Ok a.

#[global] Instance result_bind : MBind result := fun _ _ f m =>
  match m with
  | Ok a => f a
  | Raise e => Raise e
  end.

(** ** Python primitives used by the program *)

(** [l[i]] on a list: negative indices count from the end, anything out of
    range raises [IndexError]. *)
Definition getitem (l : list Z) (i : Z) : result Z :=
  let n := Z.of_nat (length l) in
  let j := if i <? 0 then i + n else i in
  if (0 <=? j) && (j <? n)
  then match l !! Z.to_nat j with
       | Some x => Ok x
       | None => Raise IndexError
       end
  else Raise IndexError.

(** [l[k:]] for a literal [k >= 0]. *)
Definition slice_from (k : nat) (l : list Z) : list Z := drop k l.

(** [a << b]: a negative shift count raises [ValueError]. *)
Definition lshift (a b : Z) : result Z :=
  if b <? 0 then Raise ValueError else Ok (Z.shiftl a b).

(** Truth value of an integer, and [a or b] on integers. *)
Definition truthy (a : Z) : bool := negb (a =? 0).

Definition py_or (a b : Z) : Z := if truthy a then a else b.

(** ** [class Seq] *)

Module Seq.

Record t : Set := mk { _value : Z }.

Definition __init__ : t := {| _value := 0 |}.

(** The [value] property: returns the counter and advances it. *)
Definition value (self : t) : Z * t :=
  let r := _value self in
  (r, {| _value := Z.land (_value self + 1) 0xff |}).

(** The [current_value] property: reads the counter. *)
Definition current_value (self : t) : Z := _value self.

Definition __int__ (self : t) : Z * t := value self.

(** [n] successive reads of [value]: the values returned, in order, and
    the counter afterwards. *)
Fixpoint calls (n : nat) (self : t) : list Z * t :=
  match n with
  | O => ([], self)
  | S n' =>
      let (r, self') := value self in
      let (rs, self'') := calls n' self' in
      (r :: rs, self'')
  end.

End Seq.

(** ** [class GipCmd] *)

Inductive GipCmd : Set :=
| Identify
| Power
| Authenticate
| Rumble
| LED.

Definition GipCmd_value (cmd : GipCmd) : Z :=
  match cmd with
  | Identify => 0x04
  | Power => 0x05
  | Authenticate => 0x06
  | Rumble => 0x09
  | LED => 0x0a
  end.

Definition SEQ_INDEX : Z := 2.

(** ** Packet construction *)

Definition make_gip_packet (cmd : GipCmd) (args : list Z) (seq : Seq.t)
  : list Z * Seq.t :=
  let (s, seq') := Seq.__int__ seq in
  let data := [GipCmd_value cmd; 0x20; s; -1] ++ args in
  let data := <[3%nat := Z.of_nat (length data) - 4]> data in
  (data, seq').

Definition GIP_MOTOR_R : Z := 0x1.
Definition GIP_MOTOR_L : Z := 0x2.
Definition GIP_MOTOR_RT : Z := 0x4.
Definition GIP_MOTOR_LT : Z := 0x8.
Definition GIP_MOTOR_ALL : Z := 0xf.

(** Defaults of the keyword arguments [on], [off] and [repeat]. *)
Definition default_on : Z := 0xff.
Definition default_off : Z := 0x00.
Definition default_repeat : Z := 0xff.

Definition make_gip_rumble_packet (lt rt la ra : Z) (seq : Seq.t)
    (on off repeat : Z) : list Z * Seq.t :=
  let (s, seq') := Seq.__int__ seq in
  let data :=
    [GipCmd_value Rumble; 0x00; s; -1; 0x00; GIP_MOTOR_ALL;
     lt; rt; la; ra; on; off; repeat] in
  let data := <[3%nat := Z.of_nat (length data) - 4]> data in
  (data, seq').

(** ** Integer decoding *)

Definition to_signed_16 (n : Z) : Z :=
  let n := Z.land n 0xffff in
  Z.lor n (- (Z.land n 0x8000)).

Definition le16 (value : list Z) : result Z :=
  v0 ← getitem value 0;
  v1 ← getitem value 1;
  hi ← lshift v1 8;
  mret (to_signed_16 (Z.lor v0 hi)).

Definition get_bit (array : list Z) (byte bit : Z) : result bool :=
  if byte >? Z.of_nat (length array) then mret false
  else
    b ← getitem array byte;
    m ← lshift 1 bit;
    mret (Z.land b m >? 0).

(** ** Text formatting *)

Section Formatting.

Local Open Scope string_scope.

Fixpoint replicate_char (n : nat) (c : ascii) : string :=
  match n with
  | O => EmptyString
  | S n' => String c (replicate_char n' c)
  end.

Definition dec_digits (v : Z) : string :=
  DecimalString.NilZero.string_of_uint (N.to_uint (Z.abs_N v)).

Definition hex_digits (v : Z) : string :=
  HexadecimalString.NilZero.string_of_uint (N.to_hex_uint (Z.abs_N v)).

(** The sign printed in front of the digits; [plus] is the [+] flag. *)
Definition sign_of (plus : bool) (v : Z) : string :=
  if (v <? 0)%Z then "-" else if plus then "+" else "".

(** The [0] flag: zeros between the sign and the digits up to [width]. *)
Definition zero_pad (width : nat) (sign digits : string) : string :=
  sign
  ++ replicate_char (width - String.length sign - String.length digits)%nat "0"
  ++ digits.

(** A plain width: spaces on the left up to [width]. *)
Definition space_pad (width : nat) (s : string) : string :=
  replicate_char (width - String.length s)%nat " " ++ s.

(** ["%d" % v] *)
Definition fmt_d (v : Z) : string := sign_of false v ++ dec_digits v.

(** ["%3d" % v] *)
Definition fmt_3d (v : Z) : string := space_pad 3 (fmt_d v).

(** ["%+05x" % v] *)
Definition fmt_plus05x (v : Z) : string :=
  zero_pad 5 (sign_of true v) (hex_digits v).

(** [f"{v:02x}"] *)
Definition fmt_02x (v : Z) : string :=
  zero_pad 2 (sign_of false v) (hex_digits v).

(** [sep.join(l)] *)
Definition join (sep : string) (l : list string) : string :=
  String.concat sep l.

Definition lower_ascii (c : ascii) : ascii :=
  let n := nat_of_ascii c in
  if ((65 <=? n) && (n <=? 90))%nat then ascii_of_nat (n + 32) else c.

(** [s.lower()], on ASCII text. *)
Fixpoint lower (s : string) : string :=
  match s with
  | EmptyString => EmptyString
  | String c s' => String (lower_ascii c) (lower s')
  end.

Definition ESC : ascii := ascii_of_nat 27.

Definition active (text : string) : string :=
  String ESC "[91m" ++ text ++ String ESC "[0m".

Definition add_if (to : list string) (name : string) (cond : bool)
  : list string :=
  if cond then (to ++ [active name])%list
  else (to ++ [lower name])%list.

(** [fmt] is the function [fun v => fmt % v] of the format string. *)
Definition add_val (to : list string) (fmt : Z -> string) (value : Z)
  : list string * Z :=
  ((to ++ [fmt value])%list, value).

End Formatting.

(** ** Input decoding *)

(** The tuple [(lx, ly, rx, ry, lt, rt)]. *)
Definition axes : Set := (Z * Z * Z * Z * Z * Z)%type.

Definition parse_input (data : list Z)
  : result (list string * list string * option axes) :=
  d0 ← getitem data 0;
  if negb (d0 =? 0x20) then
    (* Not INPUT packet *)
    mret ([], [], None)
  else
    let state := [] in
    b ← get_bit data 4 3; let state := add_if state "SELECT" b in
    b ← get_bit data 4 2; let state := add_if state "START" b in
    b ← get_bit data 22 0; let state := add_if state "REC" b in

    b ← get_bit data 4 4; let state := add_if state "A" b in
    b ← get_bit data 4 5; let state := add_if state "B" b in
    b ← get_bit data 4 6; let state := add_if state "X" b in
    b ← get_bit data 4 7; let state := add_if state "Y" b in

    b ← get_bit data 5 2; let state := add_if state "L" b in
    b ← get_bit data 5 3; let state := add_if state "R" b in
    b ← get_bit data 5 0; let state := add_if state "U" b in
    b ← get_bit data 5 1; let state := add_if state "D" b in

    (* "Bumper" *)
    b ← get_bit data 5 4; let state := add_if state "LB" b in
    b ← get_bit data 5 5; let state := add_if state "RB" b in

    (* Stick press *)
    b ← get_bit data 5 6; let state := add_if state "SL" b in
    b ← get_bit data 5 7; let state := add_if state "SR" b in

    let numbers := [] in
    v ← getitem data 34;
    let '(numbers, _) :=
      add_val numbers (fun v => "PRO:" ++ fmt_d v)%string v in

    v ← le16 (slice_from 6 data);
    let '(numbers, lt) :=
      add_val numbers (fun v => "LT:" ++ fmt_plus05x v)%string v in
    v ← le16 (slice_from 8 data);
    let '(numbers, rt) :=
      add_val numbers (fun v => "RT:" ++ fmt_plus05x v)%string v in

    v ← le16 (slice_from 10 data);
    let '(numbers, lx) :=
      add_val numbers (fun v => "LX:" ++ fmt_plus05x v)%string v in
    v ← le16 (slice_from 12 data);
    let '(numbers, ly) :=
      add_val numbers (fun v => "LY:" ++ fmt_plus05x v)%string v in
    v ← le16 (slice_from 14 data);
    let '(numbers, rx) :=
      add_val numbers (fun v => "RX:" ++ fmt_plus05x v)%string v in
    v ← le16 (slice_from 16 data);
    let '(numbers, ry) :=
      add_val numbers (fun v => "RY:" ++ fmt_plus05x v)%string v in
    mret (state, numbers, Some (lx, ly, rx, ry, lt, rt)).

(** ** The polling loop of [main]

    The part of [main] after the endpoints are resolved.  The transport is
    abstracted: what [epi.read] yields is an input of each iteration, the
    packets that [epo.write] accepts and the texts that [print] receives
    are logged.  [time.time()] is a reading of
    the clock in milliseconds, so that the [2.0] seconds of the loop
    condition are [2000]; [exit_start] keeps its sentinel [-1]. *)

Record Session : Set := mkSession {
  seq : Seq.t;
  store_buttons : list string;
  store_system : string;
  store_numbers : list string;
  store_rumble : list Z;
  exit_start : Z;
  written : list (list Z);   (* packets written by [epo.write], oldest first *)
  printed : list string      (* texts passed to [print], oldest first *)
}.

(** What [epi.read] does in one iteration. *)
Inductive read_outcome : Set :=
| USBTimeoutError
| Data (data : list Z).

(** An integer that fits an unsigned byte. *)
Definition fits_byte (b : Z) : bool := (0 <=? b) && (b <=? 255).

(** [epo.write(pkt)]: the list is converted to an array of unsigned bytes,
    which raises [OverflowError] on an element outside 0-255; an array of
    bytes is handed to the transport, which is taken to accept it. *)
Definition epo_write (pkt : list Z) (st : Session) : result Session :=
  if forallb fits_byte pkt then
    Ok (mkSession (seq st) (store_buttons st) (store_system st)
          (store_numbers st) (store_rumble st) (exit_start st)
          (written st ++ [pkt]) (printed st))
  else Raise OverflowError.

Definition print (text : string) (st : Session) : Session :=
  mkSession (seq st) (store_buttons st) (store_system st) (store_numbers st)
    (store_rumble st) (exit_start st) (written st) (printed st ++ [text]).

(** The status line: [print(first, " ".join(store_buttons), store_system,
    " ".join(store_numbers), "seq:%3d" % seq.current_value, end="")]. *)
Definition status_line (first : string) (st : Session) : string :=
  (first ++ " " ++ join " " (store_buttons st) ++ " " ++ store_system st
   ++ " " ++ join " " (store_numbers st) ++ " "
   ++ "seq:" ++ fmt_3d (Seq.current_value (seq st)))%string.

Definition CR : string := String (ascii_of_nat 13) EmptyString.
Definition LF : string := String (ascii_of_nat 10) EmptyString.

Definition render (st : Session) : Session := print (status_line CR st) st.

(** The rumble parameters derived from the axis tuple:
    [rumble], [on] and [off] of the "Rumble test code". *)
Definition derive_rumble (values : axes) : list Z * Z * Z :=
  let '(lx, ly, rx, ry, lt, rt) := values in
  let rumble := map (fun v => Z.min (Z.abs (v / 128)) 255) [lx; ly; rx; ry] in
  let on := 255 - Z.min (lt / 4) 255 in
  let off := Z.min (rt / 4) 255 in
  (rumble, on, off).

(** The condition of the "Exit logic". *)
Definition exit_pressed (data : list Z) (st : Session) : result bool :=
  if exit_start st <? 0 then
    if Z.of_nat (length data) >=? 5 then
      d4 ← getitem data 4;
      mret (truthy (py_or (Z.land d4 0x04) (Z.land d4 0x08)))
    else mret false
  else mret false.

(** The [INPUT] branch of the loop body; [now] is what [time.time()]
    returns. *)
Definition on_input (now : Z) (data : list Z) (st : Session)
  : result Session :=
  '(inp, numbers, values) ← parse_input data;
  let st := mkSession (seq st) inp (store_system st) numbers
              (store_rumble st) (exit_start st) (written st) (printed st) in
  (* Rumble test code; subscripting [None] would raise [TypeError] *)
  values ← match values with
           | Some v => Ok v
           | None => Raise TypeError
           end;
  let '(rumble, on, off) := derive_rumble values in
  let new_rumble := rumble ++ [on; off] in
  st ← (if bool_decide (new_rumble ≠ store_rumble st) then
          match rumble with
          | [lt; rt; la; ra] =>
              let (pkt, seq') :=
                make_gip_rumble_packet lt rt la ra (seq st)
                  on off default_repeat in
              st ← epo_write pkt st;
              Ok (mkSession seq' (store_buttons st) (store_system st)
                    (store_numbers st) new_rumble (exit_start st)
                    (written st) (printed st))
          | _ => Raise TypeError
          end
        else Ok st);
  (* Exit logic *)
  c ← exit_pressed data st;
  let exit_start' := if c : bool then now else -1 in
  mret (mkSession (seq st) (store_buttons st) (store_system st)
          (store_numbers st) (store_rumble st) exit_start'
          (written st) (printed st)).

(** One iteration of the [while] loop. *)
Definition loop_body (now : Z) (r : read_outcome) (st : Session)
  : result Session :=
  match r with
  | USBTimeoutError => mret st
  | Data data =>
      d0 ← getitem data 0;
      if d0 =? 0x03 then
        (* IDK? *)
        mret st
      else
        d0 ← getitem data 0;
        if d0 =? 0x07 then
          (* SYSTEM *)
          d4 ← getitem data 4;
          let sys := if d4 =? 1 then active "SYS" else "sys"%string in
          mret (render
            (mkSession (seq st) (store_buttons st) sys (store_numbers st)
               (store_rumble st) (exit_start st) (written st) (printed st)))
        else
          d0 ← getitem data 0;
          if d0 =? 0x20 then
            (* INPUT *)
            st ← on_input now data st;
            mret (render st)
          else
            mret (render (print (join " " (map fmt_02x data) ++ LF) st))
  end.

(** The loop condition, at clock reading [now]. *)
Definition loop_cond (now : Z) (st : Session) : bool :=
  (exit_start st <? 0) || (now - exit_start st <? 2000).

(** One turn of the loop as the environment drives it: the clock when the
    condition is tested, what the read yields, the clock in the body. *)
Record turn : Set := mkTurn {
  t_cond : Z;
  t_read : read_outcome;
  t_body : Z
}.

Inductive phase : Set :=
| Running    (* the given turns are used up, the loop would go on *)
| Exited.    (* the loop ended, the final rumble packet is written *)

(** The code after the loop. *)
Definition drain (st : Session) : result Session :=
  let (pkt, seq') :=
    make_gip_rumble_packet 0 0 0 0 (seq st)
      default_on default_off default_repeat in
  st ← epo_write pkt st;
  mret (print (LF ++ "Done" ++ LF)%string
          (mkSession seq' (store_buttons st) (store_system st)
             (store_numbers st) (store_rumble st) (exit_start st)
             (written st) (printed st))).

Fixpoint main_loop (turns : list turn) (st : Session)
  : result (phase * Session) :=
  match turns with
  | [] => mret (Running, st)
  | tn :: rest =>
      if loop_cond (t_cond tn) st then
        st' ← loop_body (t_body tn) (t_read tn) st;
        main_loop rest st'
      else
        st' ← drain st;
        mret (Exited, st')
  end.

(** [main] from [seq = Seq()] up to the loop. *)
Definition main_init : result Session :=
  let seq := Seq.__init__ in
  let st := mkSession seq [] "sys" [] [] (-1) [] [] in
  let (p1, seq) := make_gip_packet Power [0x00] seq in
  st ← epo_write p1 st;
  let (p2, seq) := make_gip_packet LED [0x00; 0x01; 0x14] seq in
  st ← epo_write p2 st;
  let st :=
    print (LF ++ LF ++ "To exit, long press SELECT or START " ++ LF)%string
      st in
  '(store_buttons, store_numbers, _) ← parse_input ([0x20] ++ repeat 0 40);
  let st :=
    mkSession seq store_buttons "sys" store_numbers [] (-1)
      (written st) (printed st) in
  mret (print (status_line "" st) st).

(** ** [main] before the loop: waiting for the device, the endpoints

    [usb.core.find] is polled until it returns a device; [polls] lists what
    the successive calls return.  The endpoints of the interface are then
    sorted by direction; [usb.util.endpoint_direction] and the two
    direction constants belong to the USB library and are parameters. *)

Definition PLUG_HINT : string :=
  ("Plug a (specific) GIP game pad into USB port..." ++ LF)%string.

(** The [while (dev := usb.core.find(...)) is None] loop: the device found
    ([None] when [polls] is used up before one is), the flag
    [not_found_informed], the texts printed and the number of
    [time.sleep(0.1)] calls. *)
Fixpoint wait_for_device {Dev : Type} (polls : list (option Dev))
    (not_found_informed : bool) (out : list string) (sleeps : nat)
  : option Dev * bool * list string * nat :=
  match polls with
  | [] => (None, not_found_informed, out, sleeps)
  | Some dev :: _ => (Some dev, not_found_informed, out, sleeps)
  | None :: rest =>
      let out := if negb not_found_informed then out ++ [PLUG_HINT]
                 else out in
      wait_for_device rest true out (S sleeps)
  end.

Section Endpoints.

Variable Endpoint : Type.
Variable bEndpointAddress : Endpoint -> Z.
Variable endpoint_direction : Z -> Z.
Variables ENDPOINT_IN ENDPOINT_OUT : Z.

(** The locals [epi] and [epo], and the endpoints reported with
    "Unknown endpoint direction", each with the direction printed. *)
Record ep_state : Type := mkEp {
  epi : option Endpoint;
  epo : option Endpoint;
  unknown : list (Z * Endpoint)
}.

(** The body of [for ep in ifce]. *)
Definition sort_endpoint (acc : ep_state) (ep : Endpoint) : ep_state :=
  let a := endpoint_direction (bEndpointAddress ep) in
  if a =? ENDPOINT_IN then mkEp (Some ep) (epo acc) (unknown acc)
  else if a =? ENDPOINT_OUT then mkEp (epi acc) (Some ep) (unknown acc)
  else mkEp (epi acc) (epo acc) (unknown acc ++ [(a, ep)]).

Definition sort_endpoints (ifce : list Endpoint) : ep_state :=
  fold_left sort_endpoint ifce (mkEp None None []).

(** [main] goes on with [(epi, epo)] unless
    [epi is None or epo is None]. *)
Definition resolve_endpoints (ifce : list Endpoint)
  : option (Endpoint * Endpoint) :=
  match epi (sort_endpoints ifce), epo (sort_endpoints ifce) with
  | Some i, Some o => Some (i, o)
  | _, _ => None
  end.

End Endpoints.

Arguments mkEp {Endpoint} epi epo unknown.
Arguments epi {Endpoint} e.
Arguments epo {Endpoint} e.
Arguments unknown {Endpoint} e.

(** ** Reference definitions

    What the properties below compare the program with. *)

(** The value most recently returned after [n] reads of [Seq.value] on a
    fresh counter ([0] when [n = 0]). *)
Definition last_issued (n : nat) : Z :=
  List.last (fst (Seq.calls n Seq.__init__)) 0.

(** Little-endian two's-complement encoding of [v] on two bytes. *)
Definition encode_le16 (v : Z) : list Z :=
  [Z.land v 0xff; Z.land (Z.shiftr v 8) 0xff].

(** A report in which SELECT and START are held: [buffer[0] = 0x20],
    [buffer[4] = 0b00001100], 41 bytes. *)
Definition held_report : list Z := [0x20; 0; 0; 0; 0x0c] ++ repeat 0 36.

(** The session [st] with the hold timer started at clock reading [t]. *)
Definition timer_started (t : nat) (st : Session) : Session :=
  mkSession (seq st) (store_buttons st) (store_system st) (store_numbers st)
    (store_rumble st) (Z.of_nat t) (written st) (printed st).

(** [v] clamped to the range [0]-[255]. *)
Definition clamp_byte (v : Z) : Z := Z.max 0 (Z.min v 255).

(** The rumble parameters as the specification words them: each stick axis
    divided by 128 and clamped to 0-255, the trigger axes divided by 4 and
    clamped to 0-255 for the on and off durations. *)
Definition spec_rumble (values : axes) : list Z * Z * Z :=
  let '(lx, ly, rx, ry, lt, rt) := values in
  (map (fun v => clamp_byte (v / 128)) [lx; ly; rx; ry],
   clamp_byte (lt / 4), clamp_byte (rt / 4)).

(** The system indicator as the specification words it: active exactly
    when the byte at offset 4 is nonzero. *)
Definition spec_system (d4 : Z) : string :=
  if d4 =? 0 then "sys"%string else active "SYS".

Definition int16 (v : Z) : Prop := -32768 <= v <= 32767.

(** The buttons of an INPUT report in display order: name, byte offset,
    bit. *)
Definition button_table : list (string * Z * Z) :=
  [("SELECT", 4, 3); ("START", 4, 2); ("REC", 22, 0);
   ("A", 4, 4); ("B", 4, 5); ("X", 4, 6); ("Y", 4, 7);
   ("L", 5, 2); ("R", 5, 3); ("U", 5, 0); ("D", 5, 1);
   ("LB", 5, 4); ("RB", 5, 5); ("SL", 5, 6); ("SR", 5, 7)]%string.

(** The byte of [data] at offset [k], [0] when there is none. *)
Definition byte_at (data : list Z) (k : nat) : Z := default 0 (data !! k).

(** The label of a button of the table in the report [data]. *)
Definition button_label (data : list Z) (entry : string * Z * Z) : string :=
  let '(name, byte, bit) := entry in
  if Z.testbit (byte_at data (Z.to_nat byte)) bit then active name
  else lower name.

(** The signed 16-bit value of the two bytes at offsets [k] and [k + 1]. *)
Definition axis_at (data : list Z) (k : nat) : Z :=
  to_signed_16 (Z.lor (byte_at data k) (Z.shiftl (byte_at data (S k)) 8)).

(** The numeric labels of an INPUT report in display order. *)
Definition numeric_labels (data : list Z) : list string :=
  ["PRO:" ++ fmt_d (byte_at data 34);
   "LT:" ++ fmt_plus05x (axis_at data 6);
   "RT:" ++ fmt_plus05x (axis_at data 8);
   "LX:" ++ fmt_plus05x (axis_at data 10);
   "LY:" ++ fmt_plus05x (axis_at data 12);
   "RX:" ++ fmt_plus05x (axis_at data 14);
   "RY:" ++ fmt_plus05x (axis_at data 16)]%string.

(** The axis tuple [(lx, ly, rx, ry, lt, rt)] of an INPUT report. *)
Definition axes_of (data : list Z) : axes :=
  (axis_at data 10, axis_at data 12, axis_at data 14, axis_at data 16,
   axis_at data 6, axis_at data 8).

(** [check] holds on the [n] integers from [z] on. *)
Fixpoint all_from (check : Z -> bool) (n : nat) (z : Z) : bool :=
  match n with
  | O => true
  | S n' => check z && all_from check n' (z + 1)
  end.

(** ["%+05x" % v] takes exactly five characters. *)
Definition five_wide (v : Z) : bool :=
  (String.length (fmt_plus05x v) =? 5)%nat.

(** [held_report] with other bytes at the offsets 1, 2 and 3. *)
Definition held_report_noise : list Z :=
  [0x20; 0xaa; 0xbb; 0xcc; 0x0c] ++ repeat 0 36.

(** A session in which nothing has happened yet. *)
Definition idle_session : Session :=
  mkSession Seq.__init__ [] "sys" [] [] (-1) [] [].

(** The packets written so far carry the sequence bytes 0, 1, 2, ...
    modulo 256 in the order written, each has its length minus 4 at
    index 3, and the counter holds the number of the next packet. *)
Definition packets_numbered (st : Session) : Prop :=
  Seq._value (seq st) = Z.of_nat (length (written st)) mod 256
  /\ forall i pkt, written st !! i = Some pkt ->
       pkt !! 2%nat = Some (Z.of_nat i mod 256)
       /\ pkt !! 3%nat = Some (Z.of_nat (length pkt) - 4).

(** What [read] yields is no INPUT report. *)
Definition not_input (r : read_outcome) : Prop :=
  match r with
  | USBTimeoutError => True
  | Data data => data !! 0%nat <> Some 0x20
  end.

(** A run for the examples: SELECT and START held at clock reading 1000,
    and the session it leads to from the start of [main]. *)
Definition first_hold : list turn := [mkTurn 1000 (Data held_report) 1000].

Definition after_first_hold : phase * Session :=
  Eval vm_compute in
    match st ← main_init; main_loop first_hold st with
    | Ok r => r
    | Raise _ => (Running, idle_session)
    end.

(** The offsets [parse_input] reads in an INPUT report. *)
Definition offsets_read : list nat :=
  [0; 4; 5; 6; 7; 8; 9; 10; 11; 12; 13; 14; 15; 16; 17; 22; 34]%nat.

Definition is_byte (b : Z) : Prop := 0 <= b <= 255.

(** The session in which the loop has ended 4000 ms after the timer of
    [idle_session] was started at clock reading 1000. *)
Definition stopped_session : Session :=
  Eval vm_compute in
    match drain (timer_started 1000 idle_session) with
    | Ok st => st
    | Raise _ => idle_session
    end.

(** A full INPUT report whose left trigger reads [-4]: the bytes
    [0xfc, 0xff] at the offsets 6 and 7. *)
Definition negative_trigger_report : list Z :=
  [0x20; 0; 0; 0; 0; 0; 0xfc; 0xff] ++ repeat 0 33.

(** The rumble packet that stops all motors, with sequence byte [s]. *)
Definition stop_packet (s : Z) : list Z :=
  [0x09; 0x00; s; 9; 0x00; 0x0f; 0; 0; 0; 0; 0xff; 0x00; 0xff].

(** No INPUT report of [turns] has bit 2 or bit 3 of its byte 4 set. *)
Definition never_pressed (turns : list turn) : Prop :=
  Forall (fun tn =>
            match t_read tn with
            | Data data => Z.land (byte_at data 4) 0x0c = 0
            | USBTimeoutError => True
            end) turns.

(** * Properties *)

(** ** Writing to the transport *)

Lemma epo_write_Ok (pkt : list Z) (st sw : Session) :
  epo_write pkt st = Ok sw ->
  forallb fits_byte pkt = true
  /\ sw = mkSession (seq st) (store_buttons st) (store_system st)
            (store_numbers st) (store_rumble st) (exit_start st)
            (written st ++ [pkt]) (printed st).
Proof.
  unfold epo_write. destruct (forallb fits_byte pkt); [|discriminate].
  intros [= <-]. auto.
Qed.

Lemma fits_byte_is_byte (b : Z) : fits_byte b = true <-> is_byte b.
Proof. unfold fits_byte, is_byte. lia. Qed.

Lemma forallb_fits_byte (pkt : list Z) :
  forallb fits_byte pkt = true <-> Forall is_byte pkt.
Proof.
  rewrite List.forallb_forall, List.Forall_forall.
  split; intros H b Hb; apply fits_byte_is_byte, H, Hb.
Qed.

(** ** Indexing *)

Lemma getitem_lookup (l : list Z) (i : nat) (x : Z) :
  l !! i = Some x -> getitem l (Z.of_nat i) = Ok x.
Proof.
  intros Hx. unfold getitem.
  assert (i < length l)%nat as Hi by (apply lookup_lt_is_Some; eauto).
  destruct (Z.ltb_spec (Z.of_nat i) 0) as [Hneg|_]; [lia|].
  destruct (Z.leb_spec 0 (Z.of_nat i)) as [_|Hneg]; [|lia].
  destruct (Z.ltb_spec (Z.of_nat i) (Z.of_nat (length l))) as [_|Hge]; [|lia].
  cbn [andb]. rewrite Nat2Z.id, Hx. reflexivity.
Qed.

Lemma getitem_past_end (l : list Z) (i : Z) :
  Z.of_nat (length l) <= i -> getitem l i = Raise IndexError.
Proof.
  intros Hi. unfold getitem.
  destruct (Z.ltb_spec i 0) as [Hneg|_]; [lia|].
  destruct (Z.ltb_spec i (Z.of_nat (length l))) as [Hlt|_]; [lia|].
  rewrite andb_false_r. reflexivity.
Qed.

Lemma getitem_in_range (l : list Z) (i : Z) :
  0 <= i < Z.of_nat (length l) -> exists x, getitem l i = Ok x.
Proof.
  intros Hi.
  destruct (lookup_lt_is_Some_2 l (Z.to_nat i)) as [x Hx]; [lia|].
  exists x. rewrite <- (Z2Nat.id i) by lia. now apply getitem_lookup.
Qed.

(** ** The sequence counter *)

Lemma land_0xff (x : Z) : Z.land x 0xff = x mod 256.
Proof. change 0xff with (Z.ones 8). now rewrite Z.land_ones by lia. Qed.

Lemma calls_from (n : nat) (s : Seq.t) :
  0 <= Seq._value s < 256 ->
  fst (Seq.calls n s)
    = map (fun k => (Seq._value s + Z.of_nat k) mod 256) (List.seq 0 n)
  /\ Seq._value (snd (Seq.calls n s)) = (Seq._value s + Z.of_nat n) mod 256.
Proof.
  revert s. induction n as [|n IH]; intros s Hs.
  - cbn. rewrite Z.add_0_r, Z.mod_small by lia. auto.
  - cbn [Seq.calls Seq.value].
    set (s' := {| Seq._value := Z.land (Seq._value s + 1) 0xff |}).
    assert (Seq._value s' = (Seq._value s + 1) mod 256) as Hs'
      by apply land_0xff.
    destruct (IH s') as [IHl IHv].
    { rewrite Hs'. apply Z.mod_pos_bound. lia. }
    destruct (Seq.calls n s') as [rs s'']. cbn [fst snd] in *. split.
    + cbn [List.seq map]. f_equal.
      * rewrite Z.add_0_r, Z.mod_small by lia. reflexivity.
      * rewrite IHl, <- seq_shift, map_map. apply map_ext. intros k.
        rewrite Hs', Zplus_mod_idemp_l. f_equal. lia.
    + rewrite IHv, Hs', Zplus_mod_idemp_l. f_equal. lia.
Qed.

(** C5: from a fresh counter, [n] successive reads of [value] return
    [0 mod 256, 1 mod 256, ..., (n-1) mod 256] in this order, and the read
    after them, the [(n+1)]-th, returns [n mod 256]. *)
Theorem seq_value_counts_mod_256 (n : nat) :
  fst (Seq.calls n Seq.__init__)
    = map (fun k => Z.of_nat k mod 256) (List.seq 0 n)
  /\ fst (Seq.value (snd (Seq.calls n Seq.__init__))) = Z.of_nat n mod 256.
Proof.
  destruct (calls_from n Seq.__init__) as [Hl Hv]; [cbn; lia|].
  split.
  - rewrite Hl. apply map_ext. intros k. reflexivity.
  - cbn [Seq.value fst]. rewrite Hv. reflexivity.
Qed.

(** C9, as the claim states it, fails after the first read: [value] has
    returned [0] and [current_value] is [1]. *)
Lemma current_value_is_not_last_issued :
  Seq.current_value (snd (Seq.calls 1 Seq.__init__)) <> last_issued 1.
Proof. vm_compute. discriminate. Qed.

Lemma last_issued_S (n : nat) : last_issued (S n) = Z.of_nat n mod 256.
Proof.
  unfold last_issued.
  destruct (calls_from (S n) Seq.__init__) as [-> _]; [cbn; lia|].
  rewrite seq_S, map_app. cbn [map]. now rewrite last_last.
Qed.

(** C9 (amended): after any number [n] of reads of [value] on a fresh
    counter, [current_value] is the value the next read of [value] will
    return: [n mod 256], which is [0] before any read and the last issued
    value plus one, modulo 256, afterwards.  [current_value] is a function
    of the counter and leaves it as it is. *)
Theorem current_value_is_next_value (n : nat) :
  let s := snd (Seq.calls n Seq.__init__) in
  Seq.current_value s = fst (Seq.value s)
  /\ Seq.current_value s = Z.of_nat n mod 256
  /\ Seq.current_value (snd (Seq.calls (S n) Seq.__init__))
     = (last_issued (S n) + 1) mod 256.
Proof.
  cbn zeta. split; [reflexivity|]. split.
  - destruct (calls_from n Seq.__init__) as [_ Hv]; [cbn; lia|].
    unfold Seq.current_value. rewrite Hv. reflexivity.
  - destruct (calls_from (S n) Seq.__init__) as [_ Hv]; [cbn; lia|].
    unfold Seq.current_value. rewrite Hv, last_issued_S.
    rewrite Zplus_mod_idemp_l. f_equal. cbn [Seq.__init__ Seq._value]. lia.
Qed.

(** ** Packet construction *)

(** C6: [make_gip_packet] returns [[cmd, 0x20, seq, len(args)]] followed by
    the arguments, [make_gip_rumble_packet] the 13 bytes
    [[0x09, 0x00, seq, 9, 0x00, 0x0f, lt, rt, la, ra, on, off, repeat]];
    in both the byte at index 3 is the length of the packet minus 4, and
    [seq] is the value read from the counter, which advances once. *)
Theorem packet_length_byte (cmd : GipCmd) (args : list Z) (seq : Seq.t)
    (lt rt la ra on off repeat : Z) :
  let '(p, seq1) := make_gip_packet cmd args seq in
  let '(r, seq2) := make_gip_rumble_packet lt rt la ra seq on off repeat in
  (p = [GipCmd_value cmd; 0x20; fst (Seq.value seq);
        Z.of_nat (length args)] ++ args
   /\ p !! 3%nat = Some (Z.of_nat (length p) - 4)
   /\ Z.of_nat (length p) - 4 = Z.of_nat (length args)
   /\ seq1 = snd (Seq.value seq))
  /\ (r = [0x09; 0x00; fst (Seq.value seq); 9; 0x00; 0x0f;
           lt; rt; la; ra; on; off; repeat]
      /\ length r = 13%nat
      /\ r !! 3%nat = Some (Z.of_nat (length r) - 4)
      /\ seq2 = snd (Seq.value seq)).
Proof.
  unfold make_gip_packet, make_gip_rumble_packet, Seq.__int__, Seq.value.
  cbn [fst snd app length]. cbn [insert list_insert].
  assert (Z.of_nat (S (S (S (S (length args))))) - 4
          = Z.of_nat (length args)) as -> by lia.
  repeat split; cbn [length lookup list_lookup]; try reflexivity.
  - f_equal. lia.
  - lia.
Qed.

(** ** Signed 16-bit decoding *)

(** A number below [2 ^ n] shares no bit with a multiple of [2 ^ n]. *)
Lemma land_low_shiftl (r k n : Z) :
  0 <= n -> 0 <= r < 2 ^ n -> Z.land r (Z.shiftl k n) = 0.
Proof.
  intros Hn Hr. apply Z.bits_inj'. intros i Hi.
  rewrite Z.land_spec, Z.bits_0.
  destruct (Z.lt_ge_cases i n) as [Hlt|Hge].
  - rewrite Z.shiftl_spec_low by assumption. apply andb_false_r.
  - rewrite <- (Z.mod_small r (2 ^ n)) by assumption.
    rewrite Z.mod_pow2_bits_high by lia. reflexivity.
Qed.

Lemma lor_low_shiftl (r k n : Z) :
  0 <= n -> 0 <= r < 2 ^ n -> Z.lor r (Z.shiftl k n) = r + k * 2 ^ n.
Proof.
  intros Hn Hr.
  rewrite <- Z.lxor_lor, <- Z.add_nocarry_lxor
    by now apply land_low_shiftl.
  now rewrite Z.shiftl_mul_pow2.
Qed.

Lemma to_signed_16_unsigned (u : Z) :
  0 <= u < 0x10000 ->
  to_signed_16 u = if u <? 0x8000 then u else u - 0x10000.
Proof.
  intros Hu. unfold to_signed_16.
  change 0xffff with (Z.ones 16). rewrite Z.land_ones by lia.
  change (2 ^ 16) with 0x10000. rewrite Z.mod_small by assumption.
  destruct (Z.ltb_spec u 0x8000) as [Hlt|Hge].
  - change 0x8000 with (Z.shiftl 1 15).
    rewrite land_low_shiftl by (change (2 ^ 15) with 0x8000; lia).
    apply Z.lor_0_r.
  - set (r := u - 0x8000).
    assert (0 <= r < 2 ^ 15) as Hr
      by (change (2 ^ 15) with 0x8000; unfold r; lia).
    assert (u = Z.lor r (Z.shiftl 1 15)) as Hu'.
    { rewrite lor_low_shiftl by (assumption || lia).
      change (2 ^ 15) with 0x8000. unfold r. lia. }
    rewrite Hu' at 1 2. change 0x8000 with (Z.shiftl 1 15).
    rewrite Z.land_lor_distr_l, land_low_shiftl by (assumption || lia).
    rewrite Z.land_diag, Z.lor_0_l, <- Z.lor_assoc.
    change (Z.lor (Z.shiftl 1 15) (- Z.shiftl 1 15)) with (Z.shiftl (-1) 15).
    rewrite lor_low_shiftl by (assumption || lia).
    change (2 ^ 15) with 0x8000. unfold r. lia.
Qed.

Lemma to_signed_16_range (n : Z) : -32768 <= to_signed_16 n <= 32767.
Proof.
  assert (to_signed_16 n = to_signed_16 (n mod 0x10000)) as ->.
  { unfold to_signed_16. change 0xffff with (Z.ones 16).
    rewrite !Z.land_ones by lia. change (2 ^ 16) with 0x10000.
    now rewrite Z.mod_mod by lia. }
  pose proof (Z.mod_pos_bound n 0x10000 ltac:(lia)) as Hu.
  rewrite to_signed_16_unsigned by assumption.
  destruct (Z.ltb_spec (n mod 0x10000) 0x8000); lia.
Qed.

Lemma le16_pair (lo hi : Z) :
  le16 [lo; hi] = Ok (to_signed_16 (Z.lor lo (Z.shiftl hi 8))).
Proof. reflexivity. Qed.

Lemma lor_bytes (lo hi : Z) :
  0 <= lo < 256 -> Z.lor lo (Z.shiftl hi 8) = lo + hi * 256.
Proof. intros Hlo. now rewrite lor_low_shiftl by (cbn; lia). Qed.

(** C4: for every byte pair [(lo, hi)], [le16] returns [lo | (hi << 8)]
    when that value is below [0x8000] and that value minus [0x10000]
    otherwise; and for every [v] of the signed 16-bit range, decoding the
    little-endian two's-complement encoding of [v] returns [v].  The
    boundary cases are the instances [lo = 0xff, hi = 0x7f] and
    [lo = 0x00, hi = 0x80]. *)
Theorem le16_decodes_signed_16 (lo hi v : Z)
    (Hlo : 0 <= lo < 256) (Hhi : 0 <= hi < 256) (Hv : int16 v) :
  le16 [lo; hi]
    = Ok (let u := Z.lor lo (Z.shiftl hi 8) in
          if u <? 0x8000 then u else u - 0x10000)
  /\ le16 (encode_le16 v) = Ok v.
Proof.
  split.
  - rewrite le16_pair, to_signed_16_unsigned; [reflexivity|].
    rewrite lor_bytes by assumption. lia.
  - unfold encode_le16. rewrite le16_pair, !land_0xff.
    rewrite Z.shiftr_div_pow2 by lia. change (2 ^ 8) with 256.
    rewrite lor_bytes by (apply Z.mod_pos_bound; lia).
    assert (v mod 256 + v / 256 mod 256 * 256 = v mod 0x10000) as ->.
    { change 0x10000 with (256 * 256).
      rewrite Z.rem_mul_r by lia. lia. }
    pose proof (Z.mod_pos_bound v 0x10000 ltac:(lia)) as Hu.
    rewrite to_signed_16_unsigned by assumption.
    unfold int16 in Hv. f_equal.
    destruct (Z.ltb_spec (v mod 0x10000) 0x8000) as [Hlt|Hge].
    + destruct (Z.neg_nonneg_cases v) as [Hneg|Hpos].
      * rewrite <- (Z.mod_add v 1), Z.mod_small in Hlt; lia.
      * apply Z.mod_small. lia.
    + destruct (Z.neg_nonneg_cases v) as [Hneg|Hpos].
      * rewrite <- (Z.mod_add v 1), Z.mod_small; lia.
      * rewrite Z.mod_small in Hge; lia.
Qed.

Lemma le16_decodes_signed_16_witness :
  (0 <= 0xff < 256 /\ 0 <= 0x7f < 256 /\ int16 (-32768))
  /\ le16 [0xff; 0x7f] = Ok 32767
  /\ le16 (encode_le16 (-32768)) = Ok (-32768).
Proof.
  assert (0 <= 0xff < 256) as Hlo by lia.
  assert (0 <= 0x7f < 256) as Hhi by lia.
  assert (int16 (-32768)) as Hv by (unfold int16; lia).
  split; [auto|].
  exact (le16_decodes_signed_16 0xff 0x7f (-32768) Hlo Hhi Hv).
Defined.

(** ** Bit access *)

Lemma get_bit_beyond (array : list Z) (byte bit : Z) :
  Z.of_nat (length array) < byte -> get_bit array byte bit = Ok false.
Proof.
  intros Hb. unfold get_bit.
  destruct (Z.gtb_spec byte (Z.of_nat (length array))); [reflexivity|lia].
Qed.

Lemma get_bit_inside (array : list Z) (byte bit : Z) :
  0 <= byte < Z.of_nat (length array) -> 0 <= bit ->
  exists b, getitem array byte = Ok b
            /\ get_bit array byte bit = Ok (Z.land b (Z.shiftl 1 bit) >? 0).
Proof.
  intros Hb Hbit. destruct (getitem_in_range array byte Hb) as [b Hg].
  exists b. split; [assumption|]. unfold get_bit, lshift.
  destruct (Z.gtb_spec byte (Z.of_nat (length array))); [lia|].
  rewrite Hg. cbn [mbind result_bind].
  destruct (Z.ltb_spec bit 0); [lia|]. reflexivity.
Qed.

Lemma get_bit_at_len_index_error (array : list Z) (bit : Z) :
  get_bit array (Z.of_nat (length array)) bit = Raise IndexError.
Proof.
  unfold get_bit.
  destruct (Z.gtb_spec (Z.of_nat (length array)) (Z.of_nat (length array)));
    [lia|].
  rewrite getitem_past_end by lia. reflexivity.
Qed.

(** C1: at [byteIndex = len(buffer)], which is out of bounds, [get_bit]
    does not return [False]: the guard [byte > len(array)] lets the index
    through and [array[byte]] raises [IndexError], for every buffer and
    every bit index (on the empty buffer at index 0, for one).  Strictly
    beyond the length, at [len(buffer) + 1 + k], it returns [False]. *)
Theorem get_bit_raises_at_len (array : list Z) (bit : Z) (k : nat) :
  get_bit array (Z.of_nat (length array)) bit = Raise IndexError
  /\ get_bit [] 0 0 = Raise IndexError
  /\ get_bit array (Z.of_nat (length array) + 1 + Z.of_nat k) bit = Ok false.
Proof.
  split; [apply get_bit_at_len_index_error|]. split; [reflexivity|].
  apply get_bit_beyond. lia.
Qed.

(** ** [parse_input] *)

(** C10: on a non-empty buffer whose first byte is not [0x20],
    [parse_input] returns no buttons, no numbers and no axis tuple,
    whatever the rest of the buffer holds. *)
Theorem parse_input_not_input (d0 : Z) (rest : list Z) :
  d0 <> 0x20 -> parse_input (d0 :: rest) = Ok ([], [], None).
Proof.
  intros Hd. unfold parse_input.
  pose proof (getitem_lookup (d0 :: rest) 0 d0 eq_refl) as Hg.
  change (Z.of_nat 0) with 0 in Hg. rewrite Hg.
  cbn [mbind result_bind].
  destruct (Z.eqb_spec d0 0x20); [contradiction|]. reflexivity.
Qed.

Lemma parse_input_not_input_witness :
  0x07 <> 0x20 /\ parse_input [0x07; 0x20; 0xff; 0x01; 0x01] = Ok ([], [], None).
Proof.
  split; [lia|]. apply (parse_input_not_input 0x07 [0x20; 0xff; 0x01; 0x01]).
  lia.
Defined.

(** A report of 41 bytes, all zero but the first: every button inactive,
    profile 0, every axis 0. *)
Example parse_input_idle_report :
  parse_input (0x20 :: repeat 0 40)
  = Ok (["select"; "start"; "rec"; "a"; "b"; "x"; "y"; "l"; "r"; "u"; "d";
         "lb"; "rb"; "sl"; "sr"]%string,
        ["PRO:0"; "LT:+0000"; "RT:+0000"; "LX:+0000"; "LY:+0000";
         "RX:+0000"; "RY:+0000"]%string,
        Some (0, 0, 0, 0, 0, 0)).
Proof. vm_compute. reflexivity. Qed.

(** SELECT and START are bits 3 and 2 of byte 4. *)
Example parse_input_held_report :
  exists rest numbers values,
    parse_input held_report
    = Ok (active "SELECT" :: active "START" :: rest, numbers, values).
Proof. vm_compute. eauto. Qed.

(** Where [parse_input] returns and where it raises. *)

Lemma get_bit_ok_or_index_error (array : list Z) (byte bit : Z) :
  0 <= byte -> 0 <= bit ->
  (exists b, get_bit array byte bit = Ok b)
  \/ get_bit array byte bit = Raise IndexError.
Proof.
  intros Hbyte Hbit.
  destruct (Z.lt_ge_cases byte (Z.of_nat (length array))) as [Hin|Hout].
  - destruct (get_bit_inside array byte bit) as (b & _ & Hb); [lia..|].
    left. eauto.
  - destruct (Z.eq_dec byte (Z.of_nat (length array))) as [->|Hne].
    + right. apply get_bit_at_len_index_error.
    + left. exists false. apply get_bit_beyond. lia.
Qed.

Lemma le16_ok (l : list Z) :
  (2 <= length l)%nat -> exists v, le16 l = Ok v /\ int16 v.
Proof.
  destruct l as [|lo [|hi l]]; cbn [length]; try lia. intros _.
  exists (to_signed_16 (Z.lor lo (Z.shiftl hi 8))). split.
  - unfold le16.
    pose proof (getitem_lookup (lo :: hi :: l) 0 lo eq_refl) as H0.
    pose proof (getitem_lookup (lo :: hi :: l) 1 hi eq_refl) as H1.
    change (Z.of_nat 0) with 0 in H0. change (Z.of_nat 1) with 1 in H1.
    rewrite H0. cbn [mbind result_bind]. rewrite H1. reflexivity.
  - apply to_signed_16_range.
Qed.

Lemma length_add_if (to : list string) (name : string) (cond : bool) :
  length (add_if to name cond) = S (length to).
Proof.
  unfold add_if. destruct cond; rewrite length_app; cbn [length]; lia.
Qed.

Ltac bit_inside data :=
  match goal with
  | |- context [get_bit data ?k ?b] =>
      let x := fresh "b" in
      let H := fresh "Hb" in
      destruct (get_bit_inside data k b) as (x & _ & H); [lia | lia |];
      rewrite H; clear H; cbn [mbind result_bind]
  end.

Ltac le16_inside data :=
  match goal with
  | |- context [le16 (slice_from ?k data)] =>
      let x := fresh "v" in
      let H := fresh "Hv" in
      let R := fresh "Hr" in
      destruct (le16_ok (slice_from k data)) as (x & H & R);
      [unfold slice_from; rewrite length_drop; lia |];
      rewrite H; clear H; cbn [mbind result_bind add_val]
  end.

(** A report of 35 bytes or more is decoded: [parse_input] returns, with
    15 buttons, 7 numbers and, for an INPUT report, an axis tuple of
    signed 16-bit values. *)
Lemma parse_input_full_report (data : list Z) :
  (35 <= length data)%nat ->
  exists d0 state numbers values,
    getitem data 0 = Ok d0
    /\ parse_input data = Ok (state, numbers, values)
    /\ match values with
       | Some (lx, ly, rx, ry, lt, rt) =>
           d0 = 0x20
           /\ length state = 15%nat /\ length numbers = 7%nat
           /\ int16 lx /\ int16 ly /\ int16 rx /\ int16 ry
           /\ int16 lt /\ int16 rt
       | None => d0 <> 0x20 /\ state = [] /\ numbers = []
       end.
Proof.
  intros Hlen. unfold parse_input.
  destruct (getitem_in_range data 0) as [d0 H0]; [lia|].
  exists d0. rewrite H0. cbn [mbind result_bind].
  destruct (Z.eqb_spec d0 0x20) as [Hd|Hd]; cbn [negb].
  2: { exists [], [], None. auto. }
  do 15 bit_inside data.
  destruct (getitem_in_range data 34) as [pro ->]; [lia|].
  cbn [mbind result_bind add_val].
  do 6 le16_inside data.
  eexists _, _, _. split; [reflexivity|]. split; [reflexivity|].
  rewrite !length_add_if. cbn [length app]. auto 12.
Qed.

Ltac bit_or_raise data :=
  match goal with
  | |- context [get_bit data ?k ?b] =>
      let x := fresh "b" in
      let H := fresh "Hb" in
      destruct (get_bit_ok_or_index_error data k b) as [[x H]|H];
      [lia | lia | ..]; rewrite H; clear H; cbn [mbind result_bind];
      [|reflexivity]
  end.

(** An INPUT report of fewer than 35 bytes raises [IndexError]. *)
Lemma parse_input_short_report (data : list Z) :
  getitem data 0 = Ok 0x20 -> (length data < 35)%nat ->
  parse_input data = Raise IndexError.
Proof.
  intros H0 Hlen. unfold parse_input. rewrite H0.
  cbn [mbind result_bind]. change (negb (0x20 =? 0x20)) with false.
  cbv iota.
  do 15 bit_or_raise data.
  rewrite getitem_past_end by lia. reflexivity.
Qed.

(** C2: [parse_input] raises on truncated reports.  A 30-byte INPUT
    report passes every [get_bit] and then fails on [data[34]]; the empty
    report fails on [data[0]]; and so does every INPUT report of at most
    34 bytes, [0x20] followed by at most 33 bytes. *)
Theorem parse_input_raises_on_short_report (rest : list Z) :
  parse_input (0x20 :: repeat 0 29) = Raise IndexError
  /\ parse_input [] = Raise IndexError
  /\ parse_input (0x20 :: take 33 rest) = Raise IndexError.
Proof.
  split; [vm_compute; reflexivity|]. split; [vm_compute; reflexivity|].
  apply parse_input_short_report.
  - apply (getitem_lookup _ 0). reflexivity.
  - cbn [length]. rewrite length_take. lia.
Qed.

(** ** The polling loop *)

(** *** Rumble derivation *)

Lemma motor_range (v : Z) :
  int16 v -> 0 <= Z.min (Z.abs (v / 128)) 255 <= 255.
Proof. intros _. lia. Qed.

Lemma motor_nonneg_axis (v : Z) :
  int16 v -> 0 <= v -> Z.min (Z.abs (v / 128)) 255 = clamp_byte (v / 128).
Proof.
  unfold int16, clamp_byte. intros Hv Hpos.
  assert (0 <= v / 128) by (apply Z.div_pos; lia). lia.
Qed.

(** C7, as the claim states it, fails on the axis tuple of a controller at
    rest, where the on duration is [255], not [0], and on a stick axis of
    [-128], where the motor value is [1], not [0]. *)
Lemma derive_rumble_is_not_spec_rumble :
  derive_rumble (0, 0, 0, 0, 0, 0) <> spec_rumble (0, 0, 0, 0, 0, 0)
  /\ fst (fst (derive_rumble (-128, 0, 0, 0, 0, 0)))
     <> fst (fst (spec_rumble (-128, 0, 0, 0, 0, 0))).
Proof. split; vm_compute; discriminate. Qed.

(** C7 (amended): for every axis tuple of signed 16-bit values whose
    trigger axes are not negative, each of the four motor intensities is
    [min(abs(axis // 128), 255)], the magnitude of the stick axis
    floor-divided by 128 and capped at 255, which lies in 0-255 and is the
    axis divided by 128 and clamped to 0-255 when the axis is not
    negative; the off duration is the right trigger divided by 4 and
    clamped to 0-255, and the on duration is 255 minus the left trigger
    divided by 4 and clamped to 0-255; both lie in 0-255. *)
Theorem derive_rumble_values (lx ly rx ry lt rt : Z)
    (Hlx : int16 lx) (Hly : int16 ly) (Hrx : int16 rx) (Hry : int16 ry)
    (Hlt : int16 lt) (Hrt : int16 rt) (Hlt0 : 0 <= lt) (Hrt0 : 0 <= rt) :
  let motor v := Z.min (Z.abs (v / 128)) 255 in
  derive_rumble (lx, ly, rx, ry, lt, rt)
    = ([motor lx; motor ly; motor rx; motor ry],
       255 - clamp_byte (lt / 4), clamp_byte (rt / 4))
  /\ Forall (fun v => 0 <= motor v <= 255
                      /\ (0 <= v -> motor v = clamp_byte (v / 128)))
       [lx; ly; rx; ry]
  /\ 0 <= 255 - clamp_byte (lt / 4) <= 255
  /\ 0 <= clamp_byte (rt / 4) <= 255.
Proof.
  cbn zeta.
  assert (0 <= lt / 4) as Hl by (apply Z.div_pos; lia).
  assert (0 <= rt / 4) as Hr by (apply Z.div_pos; lia).
  assert (Z.min (lt / 4) 255 = clamp_byte (lt / 4)) as El
    by (unfold clamp_byte; lia).
  assert (Z.min (rt / 4) 255 = clamp_byte (rt / 4)) as Er
    by (unfold clamp_byte; lia).
  split; [|split].
  - cbn [derive_rumble map]. now rewrite El, Er.
  - repeat (apply List.Forall_cons;
      [split; [apply motor_range | apply motor_nonneg_axis]; assumption|]).
    apply List.Forall_nil.
  - unfold clamp_byte. lia.
Qed.

Lemma derive_rumble_values_witness :
  (int16 (-129) /\ int16 32767 /\ int16 0 /\ int16 (-32768)
   /\ int16 1023 /\ int16 512 /\ 0 <= 1023 /\ 0 <= 512)
  /\ derive_rumble (-129, 32767, 0, -32768, 1023, 512)
     = ([2; 255; 0; 255], 0, 128).
Proof.
  assert (int16 (-129)) as H1 by (unfold int16; lia).
  assert (int16 32767) as H2 by (unfold int16; lia).
  assert (int16 0) as H3 by (unfold int16; lia).
  assert (int16 (-32768)) as H4 by (unfold int16; lia).
  assert (int16 1023) as H5 by (unfold int16; lia).
  assert (int16 512) as H6 by (unfold int16; lia).
  assert (0 <= 1023) as H7 by lia.
  assert (0 <= 512) as H8 by lia.
  split; [auto 10|].
  exact (proj1 (derive_rumble_values _ _ _ _ _ _ H1 H2 H3 H4 H5 H6 H7 H8)).
Defined.

(** What the INPUT branch does with the derived parameters: the report is
    decoded and, when the parameters differ from the stored ones, a rumble
    packet that carries them is built; the write raises [OverflowError]
    when the packet does not consist of bytes, and otherwise the
    parameters are stored and the packet is written. *)
Lemma on_input_rumble (now : Z) (data : list Z) (st : Session) :
  (35 <= length data)%nat -> getitem data 0 = Ok 0x20 ->
  exists inp numbers values lt rt la ra on off,
    parse_input data = Ok (inp, numbers, Some values)
    /\ derive_rumble values = ([lt; rt; la; ra], on, off)
    /\ if bool_decide ([lt; rt; la; ra; on; off] ≠ store_rumble st)
          && negb (forallb fits_byte
                     [0x09; 0x00; Seq._value (seq st); 9; 0x00; 0x0f;
                      lt; rt; la; ra; on; off; 0xff])
       then on_input now data st = Raise OverflowError
       else exists st',
              on_input now data st = Ok st'
              /\ store_rumble st' = [lt; rt; la; ra; on; off]
              /\ written st'
                 = if bool_decide
                        ([lt; rt; la; ra; on; off] ≠ store_rumble st)
                   then written st
                        ++ [[0x09; 0x00; Seq._value (seq st); 9; 0x00; 0x0f;
                             lt; rt; la; ra; on; off; 0xff]]
                   else written st.
Proof.
  intros Hlen H0.
  destruct (parse_input_full_report data Hlen)
    as (d0 & inp & numbers & values & H0' & Hp & Hv).
  rewrite H0 in H0'. injection H0' as <-.
  destruct values as [[[[[[lx ly] rx] ry] lt] rt]|]; [|now destruct Hv].
  destruct (getitem_in_range data 4) as [d4 H4]; [lia|].
  assert (forall s, exists c, exit_pressed data s = Ok c) as Hex.
  { intros s. unfold exit_pressed. destruct (exit_start s <? 0); [|eauto].
    destruct (Z.geb_spec (Z.of_nat (length data)) 5); [|lia].
    rewrite H4. eauto. }
  exists inp, numbers, (lx, ly, rx, ry, lt, rt).
  exists (Z.min (Z.abs (lx / 128)) 255), (Z.min (Z.abs (ly / 128)) 255),
    (Z.min (Z.abs (rx / 128)) 255), (Z.min (Z.abs (ry / 128)) 255),
    (255 - Z.min (lt / 4) 255), (Z.min (rt / 4) 255).
  split; [exact Hp|]. split; [reflexivity|].
  unfold on_input. rewrite Hp.
  cbn [mbind result_bind derive_rumble map app store_rumble].
  destruct (bool_decide _) eqn:Hsame; cbn [andb].
  - unfold make_gip_rumble_packet, Seq.__int__, Seq.value, epo_write.
    cbn [mbind result_bind seq length insert list_insert].
    change (GipCmd_value Rumble) with 0x09.
    change (Z.of_nat 13 - 4) with 9. change GIP_MOTOR_ALL with 0x0f.
    change default_repeat with 0xff.
    destruct (forallb fits_byte _); cbn [negb mbind result_bind];
      [|reflexivity].
    match goal with
    | |- context [exit_pressed data ?s] => destruct (Hex s) as [c ->]
    end.
    cbn [mbind result_bind mret result_ret]. eexists.
    do 2 (split; [reflexivity|]). reflexivity.
  - apply bool_decide_eq_false, dec_stable in Hsame.
    cbn [mbind result_bind].
    match goal with
    | |- context [exit_pressed data ?s] => destruct (Hex s) as [c ->]
    end.
    cbn [mbind result_bind mret result_ret]. eexists.
    split; [reflexivity|]. cbn [store_rumble written]. auto.
Qed.

(** *** The system indicator *)

(** C8, as the claim states it, fails on a SYSTEM report whose byte at
    offset 4 is 2: the byte is nonzero and the indicator is the inactive
    one. *)
Lemma system_indicator_is_not_spec_system :
  (st ← main_init;
   st' ← loop_body 0 (Data [0x07; 0; 0; 0; 2]) st;
   mret (store_system st')) <> Ok (spec_system 2).
Proof. vm_compute. discriminate. Qed.

(** C8 (amended): on a report whose first byte is [0x07] and that has a
    byte [d4] at offset 4, the loop body returns with the system indicator
    set to the active one exactly when [d4] is 1, and to the inactive one
    for every other value of [d4]. *)
Theorem system_report_sets_indicator (now : Z) (st : Session)
    (b1 b2 b3 d4 : Z) (rest : list Z) :
  exists st',
    loop_body now (Data (0x07 :: b1 :: b2 :: b3 :: d4 :: rest)) st = Ok st'
    /\ store_system st' = (if d4 =? 1 then active "SYS" else "sys"%string)
    /\ (store_system st' = active "SYS" <-> d4 = 1)
    /\ (store_system st' = "sys"%string <-> d4 <> 1).
Proof.
  set (data := 0x07 :: b1 :: b2 :: b3 :: d4 :: rest).
  pose proof (getitem_lookup data 0 0x07 eq_refl) as H0.
  pose proof (getitem_lookup data 4 d4 eq_refl) as H4.
  change (Z.of_nat 0) with 0 in H0. change (Z.of_nat 4) with 4 in H4.
  eexists. split.
  - unfold loop_body. rewrite H0. cbn [mbind result_bind].
    change (0x07 =? 0x03) with false. change (0x07 =? 0x07) with true.
    cbv iota. rewrite H4. cbn [mbind result_bind]. reflexivity.
  - cbn [render print store_system].
    destruct (Z.eqb_spec d4 1) as [->|Hne].
    + split; [reflexivity|]. split; [tauto|].
      split; [discriminate | congruence].
    + split; [reflexivity|]. split; [|tauto].
      split; [discriminate | contradiction].
Qed.

(** *** The hold-to-exit timer *)

(** While the timer runs, an INPUT report stops it, whatever the report
    says about SELECT and START. *)
Lemma on_input_stops_running_timer (now : Z) (data : list Z)
    (st st' : Session) :
  0 <= exit_start st -> on_input now data st = Ok st' ->
  exit_start st' = -1.
Proof.
  intros Hrun. unfold on_input.
  destruct (parse_input data) as [[[inp numbers] values]|e];
    cbn [mbind result_bind]; [|discriminate].
  destruct values as [values|]; cbn [mbind result_bind]; [|discriminate].
  destruct (derive_rumble values) as [[rumble on] off].
  assert (forall s, exit_start s = exit_start st ->
            exit_pressed data s = Ok false) as Hnot.
  { intros s Hs. unfold exit_pressed. rewrite Hs.
    destruct (Z.ltb_spec (exit_start st) 0); [lia|]. reflexivity. }
  destruct (bool_decide _).
  - destruct rumble as [|lt [|rt [|la [|ra [|]]]]];
      cbn [mbind result_bind]; try discriminate.
    destruct (make_gip_rumble_packet _ _ _ _ _ _ _ _) as [pkt seq'].
    destruct (epo_write pkt _) as [sw|e] eqn:Hw; cbn [mbind result_bind];
      [|discriminate].
    apply epo_write_Ok in Hw as [_ ->].
    rewrite Hnot by reflexivity. cbn [mbind result_bind].
    intros [= <-]. reflexivity.
  - cbn [mbind result_bind]. rewrite Hnot by reflexivity.
    cbn [mbind result_bind]. intros [= <-]. reflexivity.
Qed.

(** While no timer runs, an INPUT report starts it exactly when bit 2 or
    bit 3 of [data[4]] is set. *)
Lemma on_input_starts_timer (now d4 : Z) (data : list Z)
    (st st' : Session) :
  exit_start st < 0 -> getitem data 4 = Ok d4 ->
  on_input now data st = Ok st' ->
  exit_start st' = if Z.land d4 0x0c =? 0 then -1 else now.
Proof.
  intros Hidle H4. unfold on_input.
  destruct (parse_input data) as [[[inp numbers] values]|e];
    cbn [mbind result_bind]; [|discriminate].
  destruct values as [values|]; cbn [mbind result_bind]; [|discriminate].
  destruct (derive_rumble values) as [[rumble on] off].
  assert (5 <= Z.of_nat (length data)) as Hlen.
  { destruct (Z.lt_ge_cases (Z.of_nat (length data)) 5) as [Hlt|]; [|lia].
    rewrite getitem_past_end in H4 by lia. discriminate. }
  assert (truthy (py_or (Z.land d4 0x04) (Z.land d4 0x08))
          = negb (Z.land d4 0x0c =? 0)) as Hbits.
  { change 0x0c with (Z.lor 0x04 0x08). rewrite Z.land_lor_distr_r.
    unfold py_or, truthy.
    destruct (Z.eqb_spec (Z.land d4 4) 0) as [->|Hne]; cbn [negb].
    - now rewrite Z.lor_0_l.
    - destruct (Z.eqb_spec (Z.land d4 4) 0); [contradiction|]. cbn [negb].
      symmetry. apply negb_true_iff, Z.eqb_neq.
      intros Hor. apply Z.lor_eq_0_iff in Hor. tauto. }
  assert (forall s, exit_start s = exit_start st ->
            exit_pressed data s = Ok (negb (Z.land d4 0x0c =? 0))) as Hpr.
  { intros s Hs. unfold exit_pressed. rewrite Hs.
    destruct (Z.ltb_spec (exit_start st) 0); [|lia].
    destruct (Z.geb_spec (Z.of_nat (length data)) 5); [|lia].
    rewrite H4. cbn [mbind result_bind]. now rewrite Hbits. }
  destruct (bool_decide _).
  - destruct rumble as [|lt [|rt [|la [|ra [|]]]]];
      cbn [mbind result_bind]; try discriminate.
    destruct (make_gip_rumble_packet _ _ _ _ _ _ _ _) as [pkt seq'].
    destruct (epo_write pkt _) as [sw|e] eqn:Hw; cbn [mbind result_bind];
      [|discriminate].
    apply epo_write_Ok in Hw as [_ ->].
    rewrite Hpr by reflexivity. cbn [mbind result_bind].
    intros [= <-]. cbn [exit_start]. now destruct (_ =? 0).
  - cbn [mbind result_bind]. rewrite Hpr by reflexivity.
    cbn [mbind result_bind]. intros [= <-]. cbn [exit_start].
    now destruct (_ =? 0).
Qed.

(** C3: with SELECT and START held from clock reading 1000 on, the first
    INPUT report starts the timer and the second, 500 ms later and with
    both bits still set, stops it; with such a report every 500 ms the
    session is still running after three seconds of holding, the timer
    stopped.  (With no report between the first one and the test of the
    loop condition two seconds later, the loop ends.)  In every session
    whose timer runs, an INPUT report with both bits set stops the
    timer; the only other outcome is the [OverflowError] of a write whose
    packet carries a sequence counter outside 0-255, which no session of
    the program has. *)
Theorem hold_timer_stopped_while_held (st : Session) (t : nat) (now : Z) :
  let held t := mkTurn t (Data held_report) t in
  let idle t := mkTurn t USBTimeoutError t in
  let run turns :=
    st ← main_init;
    r ← main_loop turns st;
    mret (fst r, exit_start (snd r)) in
  run [held 1000] = Ok (Running, 1000)
  /\ run [held 1000; held 1500] = Ok (Running, -1)
  /\ run [held 1000; held 1500; held 2000; held 2500; held 3000; held 3500;
          idle 4000] = Ok (Running, -1)
  /\ run [held 1000; idle 3000] = Ok (Exited, 1000)
  /\ ((exists st',
         loop_body now (Data held_report) (timer_started t st) = Ok st'
         /\ exit_start st' = -1)
      \/ (loop_body now (Data held_report) (timer_started t st)
          = Raise OverflowError
          /\ ~ is_byte (Seq._value (seq st)))).
Proof.
  cbv zeta. do 4 (split; [vm_compute; reflexivity|]).
  assert (loop_body now (Data held_report) (timer_started t st)
          = (s ← on_input now held_report (timer_started t st);
             mret (render s))) as ->.
  { unfold loop_body. change (getitem held_report 0) with (Ok 0x20).
    reflexivity. }
  destruct (on_input_rumble now held_report (timer_started t st))
    as (inp & numbers & values & lt & rt & la & ra & on & off
        & Hp & Hd & Hcase); [cbn; lia | reflexivity |].
  vm_compute in Hp. injection Hp as _ _ <-.
  vm_compute in Hd. injection Hd as <- <- <- <- <- <-.
  cbn [timer_started seq store_rumble] in Hcase.
  destruct (bool_decide _ && negb (forallb fits_byte _)) eqn:Hbad.
  - right. rewrite Hcase. split; [reflexivity|]. intros Hs.
    apply andb_true_iff in Hbad as [_ Hbad].
    apply negb_true_iff, not_true_iff_false in Hbad. apply Hbad.
    apply forallb_fits_byte.
    repeat (apply List.Forall_cons; [first [exact Hs | unfold is_byte; lia]|]).
    apply List.Forall_nil.
  - left. destruct Hcase as (st1 & Hin & _). rewrite Hin.
    exists (render st1). split; [reflexivity|].
    cbn [render print exit_start].
    apply (on_input_stops_running_timer now held_report _ _) in Hin;
      [assumption|]. cbn [timer_started exit_start]. lia.
Qed.

(** Two INPUT reports in a row that derive the same rumble parameters:
    the rumble packet is written for the first one only (after the two
    packets of the initialisation). *)
Example same_rumble_written_once :
  let report := mkTurn 0 (Data (0x20 :: repeat 0 40)) 0 in
  (st ← main_init;
   r ← main_loop [report; report] st;
   mret (written (snd r)))
  = Ok [[0x05; 0x20; 0; 1; 0x00];
        [0x0a; 0x20; 1; 3; 0x00; 0x01; 0x14];
        [0x09; 0x00; 2; 9; 0x00; 0x0f; 0; 0; 0; 0; 255; 0; 0xff]].
Proof. vm_compute. reflexivity. Qed.

Lemma parse_input_not_input_first (d0 : Z) (rest : list Z) :
  d0 <> 0x20 -> parse_input (d0 :: rest) = Ok ([], [], None).
Proof.
  intros Hd. unfold parse_input.
  pose proof (getitem_lookup (d0 :: rest) 0 d0 eq_refl) as Hg.
  change (Z.of_nat 0) with 0 in Hg. rewrite Hg. cbn [mbind result_bind].
  destruct (Z.eqb_spec d0 0x20); [contradiction|]. reflexivity.
Qed.

(** * Further properties *)

(** ** The sequence counter wraps around *)

Lemma counter_after (m : nat) :
  0 <= Seq._value (snd (Seq.calls m Seq.__init__)) < 256.
Proof.
  destruct (calls_from m Seq.__init__) as [_ ->]; [cbn; lia|].
  apply Z.mod_pos_bound. lia.
Qed.

(** X1: whatever was read before, the next 256 reads of [value] return
    256 pairwise distinct values. *)
Theorem seq_256_reads_distinct (m : nat) :
  List.NoDup (fst (Seq.calls 256 (snd (Seq.calls m Seq.__init__))))
  /\ length (fst (Seq.calls 256 (snd (Seq.calls m Seq.__init__)))) = 256%nat.
Proof.
  pose proof (counter_after m) as Hv.
  destruct (calls_from 256 _ Hv) as [-> _]. split.
  - apply List.NoDup_map_NoDup_ForallPairs; [|apply List.seq_NoDup].
    intros j k Hj Hk Heq. apply List.in_seq in Hj, Hk.
    set (v := Seq._value (snd (Seq.calls m Seq.__init__))) in *.
    assert (forall i : nat, (i < 256)%nat ->
              (v + Z.of_nat i) mod 256
              = if v + Z.of_nat i <? 256 then v + Z.of_nat i
                else v + Z.of_nat i - 256) as Hmod.
    { intros i Hi. destruct (Z.ltb_spec (v + Z.of_nat i) 256).
      - apply Z.mod_small. lia.
      - rewrite <- (Z.mod_add _ (-1)) by lia. apply Z.mod_small. lia. }
    rewrite !Hmod in Heq by lia.
    destruct (Z.ltb_spec (v + Z.of_nat j) 256),
      (Z.ltb_spec (v + Z.of_nat k) 256); lia.
  - now rewrite length_map, length_seq.
Qed.

(** X2: 256 reads of [value] bring the counter back to where it was, and
    the read after [m + 256] reads returns what the read after [m] reads
    returns. *)
Theorem seq_period_256 (m : nat) :
  snd (Seq.calls 256 (snd (Seq.calls m Seq.__init__)))
  = snd (Seq.calls m Seq.__init__)
  /\ fst (Seq.value (snd (Seq.calls (m + 256) Seq.__init__)))
     = fst (Seq.value (snd (Seq.calls m Seq.__init__))).
Proof.
  pose proof (counter_after m) as Hv. split.
  - destruct (calls_from 256 _ Hv) as [_ Hc].
    destruct (snd (Seq.calls 256 _)) as [c], (snd (Seq.calls m _)) as [v].
    cbn [Seq._value] in *. f_equal. rewrite Hc.
    change (Z.of_nat 256) with (1 * 256).
    rewrite Z.mod_add by lia. apply Z.mod_small. lia.
  - cbn [Seq.value fst].
    destruct (calls_from (m + 256) Seq.__init__) as [_ ->]; [cbn; lia|].
    destruct (calls_from m Seq.__init__) as [_ ->]; [cbn; lia|].
    rewrite Nat2Z.inj_add, Z.add_assoc. change (Z.of_nat 256) with (1 * 256).
    now rewrite Z.mod_add by lia.
Qed.

(** ** Signed 16-bit decoding on arbitrary integers *)

Lemma to_signed_16_mod (n : Z) :
  to_signed_16 n = to_signed_16 (n mod 0x10000).
Proof.
  unfold to_signed_16. change 0xffff with (Z.ones 16).
  rewrite !Z.land_ones by lia. change (2 ^ 16) with 0x10000.
  now rewrite Z.mod_mod by lia.
Qed.

Lemma to_signed_16_congruent (n : Z) :
  to_signed_16 n mod 0x10000 = n mod 0x10000.
Proof.
  rewrite to_signed_16_mod.
  pose proof (Z.mod_pos_bound n 0x10000 ltac:(lia)) as Hu.
  rewrite to_signed_16_unsigned by assumption.
  destruct (Z.ltb_spec (n mod 0x10000) 0x8000).
  - apply Z.mod_mod. lia.
  - rewrite <- (Z.mod_add _ 1) by lia.
    replace (n mod 0x10000 - 0x10000 + 1 * 0x10000) with (n mod 0x10000)
      by lia.
    apply Z.mod_mod. lia.
Qed.

(** X3: on every integer, negative or wider than 16 bits, [to_signed_16]
    returns a value of the signed 16-bit range that is congruent to its
    argument modulo [0x10000]; applying it twice changes nothing. *)
Theorem to_signed_16_wraps (n : Z) :
  int16 (to_signed_16 n)
  /\ to_signed_16 n mod 0x10000 = n mod 0x10000
  /\ to_signed_16 (to_signed_16 n) = to_signed_16 n.
Proof.
  split; [apply to_signed_16_range|]. split; [apply to_signed_16_congruent|].
  rewrite (to_signed_16_mod (to_signed_16 n)), to_signed_16_congruent.
  symmetry. apply to_signed_16_mod.
Qed.

(** X4: a signed 16-bit value is left as it is. *)
Theorem to_signed_16_int16 (v : Z) : int16 v -> to_signed_16 v = v.
Proof.
  unfold int16. intros Hv. rewrite to_signed_16_mod.
  pose proof (Z.mod_pos_bound v 0x10000 ltac:(lia)) as Hu.
  rewrite to_signed_16_unsigned by assumption.
  destruct (Z.neg_nonneg_cases v) as [Hneg|Hpos].
  - assert (v mod 0x10000 = v + 0x10000) as ->.
    { rewrite <- (Z.mod_add v 1) by lia. apply Z.mod_small. lia. }
    destruct (Z.ltb_spec (v + 0x10000) 0x8000); lia.
  - rewrite Z.mod_small by lia.
    destruct (Z.ltb_spec v 0x8000); lia.
Qed.

Lemma to_signed_16_int16_witness :
  int16 (-2) /\ to_signed_16 (-2) = -2.
Proof.
  assert (int16 (-2)) as H by (unfold int16; lia).
  split; [exact H | exact (to_signed_16_int16 (-2) H)].
Defined.

(** X5: [le16] reads the first two elements only, and raises [IndexError]
    on a list of fewer than two. *)
Theorem le16_first_two (lo hi : Z) (rest : list Z) :
  le16 (lo :: hi :: rest) = le16 [lo; hi]
  /\ le16 [lo] = Raise IndexError
  /\ le16 [] = Raise IndexError.
Proof.
  split; [|split; reflexivity].
  rewrite le16_pair. unfold le16.
  pose proof (getitem_lookup (lo :: hi :: rest) 0 lo eq_refl) as H0.
  pose proof (getitem_lookup (lo :: hi :: rest) 1 hi eq_refl) as H1.
  change (Z.of_nat 0) with 0 in H0. change (Z.of_nat 1) with 1 in H1.
  rewrite H0. cbn [mbind result_bind]. rewrite H1. reflexivity.
Qed.

(** X6: on byte pairs [le16] is injective: two pairs with the same value
    are the same pair. *)
Theorem le16_injective (lo hi lo' hi' : Z) :
  is_byte lo -> is_byte hi -> is_byte lo' -> is_byte hi' ->
  le16 [lo; hi] = le16 [lo'; hi'] -> lo = lo' /\ hi = hi'.
Proof.
  unfold is_byte. intros Hlo Hhi Hlo' Hhi'. rewrite !le16_pair.
  rewrite !lor_bytes by lia. intros [= Heq].
  apply (f_equal (fun x => x mod 0x10000)) in Heq.
  rewrite !to_signed_16_congruent, !Z.mod_small in Heq by lia. lia.
Qed.

Lemma le16_injective_witness :
  (is_byte 0x34 /\ is_byte 0x92 /\ le16 [0x34; 0x92] = le16 [0x34; 0x92])
  /\ 0x34 = 0x34 /\ 0x92 = 0x92.
Proof.
  assert (is_byte 0x34) as H1 by (unfold is_byte; lia).
  assert (is_byte 0x92) as H2 by (unfold is_byte; lia).
  split; [auto|].
  exact (le16_injective 0x34 0x92 0x34 0x92 H1 H2 H1 H2 eq_refl).
Defined.

(** ** Bit access inside the buffer *)

Lemma land_bit_mask (b bit : Z) :
  0 <= bit -> (Z.land b (Z.shiftl 1 bit) >? 0) = Z.testbit b bit.
Proof.
  intros Hbit. rewrite Z.shiftl_mul_pow2, Z.mul_1_l by assumption.
  assert (Z.land b (2 ^ bit) = if Z.testbit b bit then 2 ^ bit else 0) as ->.
  { apply Z.bits_inj'. intros i Hi.
    rewrite Z.land_spec, Z.pow2_bits_eqb by assumption.
    destruct (Z.eqb_spec bit i) as [->|Hne].
    - rewrite andb_true_r. destruct (Z.testbit b i) eqn:Hb.
      + now rewrite Z.pow2_bits_true.
      + now rewrite Z.bits_0.
    - rewrite andb_false_r. destruct (Z.testbit b bit).
      + now rewrite Z.pow2_bits_false.
      + now rewrite Z.bits_0.  }
  destruct (Z.testbit b bit).
  - apply Z.gtb_gt. apply Z.lt_gt, Z.pow_pos_nonneg; lia.
  - reflexivity.
Qed.

(** X7: for an index inside the buffer and a bit index that is not
    negative, [get_bit] returns that bit of that byte. *)
Theorem get_bit_is_testbit (array : list Z) (k : nat) (b bit : Z) :
  array !! k = Some b -> 0 <= bit ->
  get_bit array (Z.of_nat k) bit = Ok (Z.testbit b bit).
Proof.
  intros Hk Hbit.
  assert (k < length array)%nat as Hlt by (apply lookup_lt_is_Some; eauto).
  destruct (get_bit_inside array (Z.of_nat k) bit) as (b' & Hg & ->);
    [lia | lia |].
  rewrite (getitem_lookup _ _ _ Hk) in Hg. injection Hg as <-.
  now rewrite land_bit_mask.
Qed.

Lemma get_bit_is_testbit_witness :
  ([0x20; 0; 0; 0; 0x0c] !! 4%nat = Some 0x0c /\ 0 <= 3)
  /\ get_bit [0x20; 0; 0; 0; 0x0c] 4 3 = Ok true.
Proof.
  assert (0 <= 3) as H by lia.
  split; [auto|].
  exact (get_bit_is_testbit [0x20; 0; 0; 0; 0x0c] 4 0x0c 3 eq_refl H).
Defined.

Lemma getitem_middle (pre post : list Z) (b : Z) :
  getitem (pre ++ b :: post) (Z.of_nat (length pre)) = Ok b.
Proof. apply getitem_lookup, list_lookup_middle. reflexivity. Qed.

(** X8: a negative byte index counts from the end of the buffer, as list
    indexing does: [-1 - len(post)] reads the byte that has [post] after
    it, and an index below [-len(array)] raises [IndexError].  A negative
    bit index raises [ValueError] once the byte is read. *)
Theorem get_bit_negative_arguments (pre post : list Z) (b : Z) (n k : nat) :
  get_bit (pre ++ b :: post) (-1 - Z.of_nat (length post)) (Z.of_nat n)
  = Ok (Z.testbit b (Z.of_nat n))
  /\ get_bit pre (-1 - Z.of_nat (length pre) - Z.of_nat k) (Z.of_nat n)
     = Raise IndexError
  /\ get_bit (pre ++ b :: post) (Z.of_nat (length pre)) (-1 - Z.of_nat n)
     = Raise ValueError.
Proof.
  split; [|split].
  - unfold get_bit, getitem, lshift.
    set (array := pre ++ b :: post).
    assert (length array = S (length pre + length post)) as Hlen
      by (unfold array; rewrite length_app; cbn [length]; lia).
    destruct (Z.gtb_spec (-1 - Z.of_nat (length post))
                (Z.of_nat (length array))); [lia|].
    destruct (Z.ltb_spec (-1 - Z.of_nat (length post)) 0); [|lia].
    replace (-1 - Z.of_nat (length post) + Z.of_nat (length array))
      with (Z.of_nat (length pre)) by lia.
    destruct (Z.leb_spec 0 (Z.of_nat (length pre))); [|lia].
    destruct (Z.ltb_spec (Z.of_nat (length pre))
                (Z.of_nat (length array))); [|lia].
    cbn [andb]. rewrite Nat2Z.id. unfold array.
    rewrite list_lookup_middle by reflexivity. cbn [mbind result_bind].
    destruct (Z.ltb_spec (Z.of_nat n) 0); [lia|].
    cbn [mbind result_bind mret result_ret].
    rewrite land_bit_mask by lia. reflexivity.
  - unfold get_bit, getitem.
    set (i := -1 - Z.of_nat (length pre) - Z.of_nat k).
    destruct (Z.gtb_spec i (Z.of_nat (length pre))); [lia|].
    destruct (Z.ltb_spec i 0); [|lia].
    destruct (Z.leb_spec 0 (i + Z.of_nat (length pre))); [lia|].
    reflexivity.
  - unfold get_bit, lshift.
    destruct (Z.gtb_spec (Z.of_nat (length pre))
                (Z.of_nat (length (pre ++ b :: post)))) as [Hgt|_].
    { rewrite length_app in Hgt. lia. }
    rewrite getitem_middle. cbn [mbind result_bind].
    destruct (Z.ltb_spec (-1 - Z.of_nat n) 0); [|lia]. reflexivity.
Qed.

(** ** What [parse_input] returns on a full INPUT report *)

Lemma lookup_byte_at (data : list Z) (k : nat) :
  (k < length data)%nat -> data !! k = Some (byte_at data k).
Proof.
  intros Hk. unfold byte_at.
  destruct (lookup_lt_is_Some_2 data k Hk) as [x ->]. reflexivity.
Qed.

Lemma getitem_byte_at (data : list Z) (k : Z) :
  0 <= k < Z.of_nat (length data) ->
  getitem data k = Ok (byte_at data (Z.to_nat k)).
Proof.
  intros Hk. rewrite <- (Z2Nat.id k) at 1 by lia.
  apply getitem_lookup, lookup_byte_at. lia.
Qed.

Lemma get_bit_byte_at (data : list Z) (k bit : Z) :
  0 <= k < Z.of_nat (length data) -> 0 <= bit ->
  get_bit data k bit = Ok (Z.testbit (byte_at data (Z.to_nat k)) bit).
Proof.
  intros Hk Hbit.
  destruct (get_bit_inside data k bit) as (b & Hg & ->); [lia | lia |].
  rewrite getitem_byte_at in Hg by lia. injection Hg as <-.
  now rewrite land_bit_mask.
Qed.

Lemma le16_slice (data : list Z) (k : nat) :
  (S k < length data)%nat -> le16 (slice_from k data) = Ok (axis_at data k).
Proof.
  intros Hk. unfold le16, slice_from, axis_at.
  pose proof (getitem_lookup (drop k data) 0 (byte_at data k)) as H0.
  pose proof (getitem_lookup (drop k data) 1 (byte_at data (S k))) as H1.
  rewrite lookup_drop, Nat.add_0_r in H0.
  rewrite lookup_drop, Nat.add_1_r in H1.
  change (Z.of_nat 0) with 0 in H0. change (Z.of_nat 1) with 1 in H1.
  rewrite H0 by (apply lookup_byte_at; lia). cbn [mbind result_bind].
  rewrite H1 by (apply lookup_byte_at; lia). reflexivity.
Qed.

Lemma add_if_snoc (to : list string) (name : string) (cond : bool) :
  add_if to name cond = to ++ [if cond then active name else lower name].
Proof. now destruct cond. Qed.

Lemma parse_input_formula (data : list Z) :
  (35 <= length data)%nat -> data !! 0%nat = Some 0x20 ->
  parse_input data
  = Ok (map (button_label data) button_table, numeric_labels data,
        Some (axes_of data)).
Proof.
  intros Hlen H0. unfold parse_input.
  pose proof (getitem_lookup data 0 _ H0) as Hg.
  change (Z.of_nat 0) with 0 in Hg. rewrite Hg.
  cbn [mbind result_bind]. change (negb (0x20 =? 0x20)) with false.
  cbv iota.
  repeat (rewrite get_bit_byte_at by lia; cbn [mbind result_bind]).
  rewrite (getitem_byte_at data 34) by lia.
  cbn [mbind result_bind add_val].
  repeat (rewrite le16_slice by lia; cbn [mbind result_bind add_val]).
  rewrite !add_if_snoc. reflexivity.
Qed.

Lemma length_string_app (a b : string) :
  String.length (a ++ b) = (String.length a + String.length b)%nat.
Proof. induction a as [|c a IH]; cbn; [reflexivity | now rewrite IH]. Qed.

Lemma length_lower (a : string) : String.length (lower a) = String.length a.
Proof. induction a as [|c a IH]; cbn; [reflexivity | now rewrite IH]. Qed.

Lemma active_is_not_lower (name : string) : active name <> lower name.
Proof.
  intros Heq. apply (f_equal String.length) in Heq.
  unfold active in Heq. cbn [String.length] in Heq.
  rewrite length_string_app, length_string_app, length_lower in Heq.
  cbn [String.length] in Heq. lia.
Qed.

(** X9: in a full INPUT report (35 bytes or more, first byte [0x20]) the
    [i]-th label returned by [parse_input] is that of the [i]-th button of
    the table SELECT, START, REC, A, B, X, Y, L, R, U, D, LB, RB, SL, SR:
    the highlighted name when the button's bit is set in its byte, the
    name in lower case when it is not; the two are never the same text. *)
Theorem parse_input_button (data : list Z) (i : nat)
    (name : string) (byte bit : Z) :
  (35 <= length data)%nat -> data !! 0%nat = Some 0x20 ->
  button_table !! i = Some (name, byte, bit) ->
  exists state numbers values,
    parse_input data = Ok (state, numbers, values)
    /\ length state = 15%nat
    /\ state !! i
       = Some (if Z.testbit (byte_at data (Z.to_nat byte)) bit
               then active name else lower name)
    /\ (state !! i = Some (active name)
        <-> Z.testbit (byte_at data (Z.to_nat byte)) bit = true).
Proof.
  intros Hlen H0 Hi.
  exists (button_label data <$> button_table), (numeric_labels data),
    (Some (axes_of data)).
  split; [now apply parse_input_formula|]. split; [reflexivity|].
  rewrite list_lookup_fmap, Hi. cbn [fmap option_fmap option_map button_label].
  split; [reflexivity|].
  destruct (Z.testbit _ bit); split; try reflexivity; try discriminate.
  intros [= Heq]. symmetry in Heq. now apply active_is_not_lower in Heq.
Qed.

Lemma parse_input_button_witness :
  ((35 <= length held_report)%nat /\ held_report !! 0%nat = Some 0x20
   /\ button_table !! 1%nat = Some ("START"%string, 4, 2))
  /\ exists state numbers values,
       parse_input held_report = Ok (state, numbers, values)
       /\ length state = 15%nat
       /\ state !! 1%nat
          = Some (if Z.testbit (byte_at held_report (Z.to_nat 4)) 2
                  then active "START" else lower "START")
       /\ (state !! 1%nat = Some (active "START")
           <-> Z.testbit (byte_at held_report (Z.to_nat 4)) 2 = true).
Proof.
  assert (35 <= length held_report)%nat as H1 by (cbn; lia).
  assert (held_report !! 0%nat = Some 0x20) as H2 by reflexivity.
  assert (button_table !! 1%nat = Some ("START"%string, 4, 2)) as H3
    by reflexivity.
  split; [auto|].
  exact (parse_input_button held_report 1 "START" 4 2 H1 H2 H3).
Defined.

(** X10: in a full INPUT report made of bytes, the axis tuple is
    [(lx, ly, rx, ry, lt, rt)] with each value read from two bytes, low
    byte first, at the offsets 10, 12, 14, 16, 6 and 8: the unsigned value
    [lo + 256 * hi] when it is below [0x8000], that value minus [0x10000]
    otherwise.  The profile number is the byte at offset 34. *)
Theorem parse_input_axes (data : list Z) :
  (35 <= length data)%nat -> data !! 0%nat = Some 0x20 ->
  Forall is_byte data ->
  let s16 k :=
    let u := byte_at data k + 256 * byte_at data (S k) in
    if u <? 0x8000 then u else u - 0x10000 in
  exists state numbers,
    parse_input data
    = Ok (state, numbers,
          Some (s16 10%nat, s16 12%nat, s16 14%nat, s16 16%nat,
                s16 6%nat, s16 8%nat))
    /\ numbers !! 0%nat = Some ("PRO:" ++ fmt_d (byte_at data 34))%string.
Proof.
  intros Hlen H0 Hbytes. cbn zeta.
  assert (forall k, (S k < length data)%nat ->
            axis_at data k
            = if byte_at data k + 256 * byte_at data (S k) <? 0x8000
              then byte_at data k + 256 * byte_at data (S k)
              else byte_at data k + 256 * byte_at data (S k) - 0x10000)
    as Haxis.
  { intros k Hk. unfold axis_at.
    pose proof (Forall_lookup_1 _ _ _ _ Hbytes
                  (lookup_byte_at data k ltac:(lia))) as Hlo.
    pose proof (Forall_lookup_1 _ _ _ _ Hbytes
                  (lookup_byte_at data (S k) ltac:(lia))) as Hhi.
    unfold is_byte in Hlo, Hhi.
    rewrite lor_bytes by lia.
    replace (byte_at data k + byte_at data (S k) * 256)
      with (byte_at data k + 256 * byte_at data (S k)) by lia.
    apply to_signed_16_unsigned. lia. }
  exists (button_label data <$> button_table), (numeric_labels data).
  split; [|reflexivity].
  rewrite parse_input_formula by assumption. unfold axes_of.
  rewrite !Haxis by lia. reflexivity.
Qed.

Lemma parse_input_axes_witness :
  ((35 <= length held_report)%nat /\ held_report !! 0%nat = Some 0x20
   /\ Forall is_byte held_report)
  /\ exists state numbers,
       parse_input held_report = Ok (state, numbers, Some (0, 0, 0, 0, 0, 0))
       /\ numbers !! 0%nat = Some "PRO:0"%string.
Proof.
  assert (35 <= length held_report)%nat as H1 by (cbn; lia).
  assert (held_report !! 0%nat = Some 0x20) as H2 by reflexivity.
  assert (Forall is_byte held_report) as H3
    by (unfold held_report, is_byte; cbn [repeat app];
        repeat (apply List.Forall_cons; [lia|]); apply List.Forall_nil).
  split; [auto|].
  exact (parse_input_axes held_report H1 H2 H3).
Defined.

(** X11: [parse_input] looks at the offsets 0, 4, 5, 6 to 17, 22 and 34
    only: two reports of 35 bytes or more that agree there are decoded
    alike. *)
Theorem parse_input_reads_offsets (data data' : list Z) :
  (35 <= length data)%nat -> (35 <= length data')%nat ->
  Forall (fun k => data !! k = data' !! k) offsets_read ->
  parse_input data = parse_input data'.
Proof.
  intros Hlen Hlen' Hsame.
  assert (forall k, In k offsets_read -> byte_at data k = byte_at data' k)
    as Hb.
  { intros k Hk. unfold byte_at.
    now rewrite (proj1 (List.Forall_forall _ _) Hsame k Hk). }
  assert (data !! 0%nat = data' !! 0%nat) as H0
    by (apply (proj1 (List.Forall_forall _ _) Hsame); cbn; auto).
  destruct (Z.eq_dec (byte_at data 0) 0x20) as [Heq|Hne].
  - rewrite !parse_input_formula; try assumption.
    + unfold numeric_labels, axes_of, axis_at.
      cbn [fmap list_fmap map button_table button_label].
      change (Z.to_nat 4) with 4%nat. change (Z.to_nat 5) with 5%nat.
      change (Z.to_nat 22) with 22%nat.
      rewrite !(Hb 4%nat), !(Hb 5%nat), !(Hb 6%nat), !(Hb 7%nat),
        !(Hb 8%nat), !(Hb 9%nat), !(Hb 10%nat), !(Hb 11%nat), !(Hb 12%nat),
        !(Hb 13%nat), !(Hb 14%nat), !(Hb 15%nat), !(Hb 16%nat),
        !(Hb 17%nat), !(Hb 22%nat), !(Hb 34%nat)
        by (cbn; tauto).
      reflexivity.
    + rewrite <- H0, (lookup_byte_at data 0) by lia. now rewrite Heq.
    + rewrite (lookup_byte_at data 0) by lia. now rewrite Heq.
  - destruct data as [|d0 rest]; [cbn in Hlen; lia|].
    destruct data' as [|d0' rest']; [cbn in Hlen'; lia|].
    cbn in H0. injection H0 as <-. cbn in Hne.
    now rewrite !parse_input_not_input_first.
Qed.

Lemma parse_input_reads_offsets_witness :
  ((35 <= length held_report)%nat
   /\ (35 <= length held_report_noise)%nat
   /\ Forall (fun k => held_report !! k
                       = held_report_noise !! k)
        offsets_read)
  /\ parse_input held_report
     = parse_input held_report_noise.
Proof.
  assert (35 <= length held_report)%nat as H1 by (cbn; lia).
  assert (35 <= length held_report_noise)%nat
    as H2 by (cbn; lia).
  assert (Forall (fun k => held_report !! k
                       = held_report_noise !! k)
            offsets_read) as H3
    by (repeat (apply List.Forall_cons; [reflexivity|]);
        apply List.Forall_nil).
  split; [auto|].
  exact (parse_input_reads_offsets held_report _ H1 H2 H3).
Defined.

(** ** The width of the numeric labels *)

Lemma all_from_spec (check : Z -> bool) (n : nat) (z v : Z) :
  all_from check n z = true -> z <= v < z + Z.of_nat n -> check v = true.
Proof.
  revert z. induction n as [|n IH]; intros z Hall Hv; [lia|].
  cbn [all_from] in Hall. apply andb_true_iff in Hall as [Hz Hrest].
  destruct (Z.eq_dec v z) as [->|Hne]; [assumption|].
  apply (IH (z + 1)); [assumption | lia].
Qed.

Lemma five_wide_int16 :
  all_from five_wide (256 * 256) (-32768) = true.
Proof. vm_compute. reflexivity. Qed.

Lemma fmt_plus05x_int16 (v : Z) :
  int16 v -> String.length (fmt_plus05x v) = 5%nat.
Proof.
  unfold int16. intros Hv. apply Nat.eqb_eq.
  apply (all_from_spec five_wide (256 * 256) (-32768));
    [exact five_wide_int16 | lia].
Qed.

(** X12: in a full INPUT report, whatever integers it holds, each of the
    six axis labels that follow the profile label takes exactly eight
    characters: two letters, a colon, a sign and four hexadecimal
    digits. *)
Theorem parse_input_axis_labels_width (data : list Z) :
  (35 <= length data)%nat -> data !! 0%nat = Some 0x20 ->
  exists state numbers values,
    parse_input data = Ok (state, numbers, values)
    /\ length numbers = 7%nat
    /\ Forall (fun label => String.length label = 8%nat) (drop 1 numbers).
Proof.
  intros Hlen H0.
  exists (button_label data <$> button_table), (numeric_labels data),
    (Some (axes_of data)).
  split; [now apply parse_input_formula|]. split; [reflexivity|].
  unfold numeric_labels. cbn [drop].
  repeat (apply List.Forall_cons;
    [cbn [String.append String.length]; unfold axis_at;
     rewrite fmt_plus05x_int16 by apply to_signed_16_range; reflexivity|]).
  apply List.Forall_nil.
Qed.

Lemma parse_input_axis_labels_width_witness :
  ((35 <= length held_report)%nat /\ held_report !! 0%nat = Some 0x20)
  /\ exists state numbers values,
       parse_input held_report = Ok (state, numbers, values)
       /\ length numbers = 7%nat
       /\ Forall (fun label => String.length label = 8%nat) (drop 1 numbers).
Proof.
  assert (35 <= length held_report)%nat as H1 by (cbn; lia).
  assert (held_report !! 0%nat = Some 0x20) as H2 by reflexivity.
  split; [auto|].
  exact (parse_input_axis_labels_width held_report H1 H2).
Defined.

(** ** What one iteration of the loop changes *)

Lemma loop_body_input (now : Z) (data : list Z) (st : Session) :
  data !! 0%nat = Some 0x20 ->
  loop_body now (Data data) st
  = (st' ← on_input now data st; mret (render st')).
Proof.
  intros H0. unfold loop_body.
  pose proof (getitem_lookup data 0 _ H0) as Hg.
  change (Z.of_nat 0) with 0 in Hg. rewrite Hg. reflexivity.
Qed.

Lemma getitem_ok_lookup (l : list Z) (x : Z) :
  getitem l 0 = Ok x -> l !! 0%nat = Some x.
Proof.
  destruct l as [|y l]; [discriminate|].
  pose proof (getitem_lookup (y :: l) 0 y eq_refl) as Hg.
  change (Z.of_nat 0) with 0 in Hg. rewrite Hg. now intros [= ->].
Qed.

(** The INPUT branch either leaves the packets, the counter and the stored
    rumble parameters alone, or writes one rumble packet that carries the
    counter and the new parameters. *)
Lemma on_input_effect (now : Z) (data : list Z) (st st' : Session) :
  on_input now data st = Ok st' ->
  store_system st' = store_system st /\ printed st' = printed st
  /\ ((written st' = written st /\ seq st' = seq st
       /\ store_rumble st' = store_rumble st)
      \/ exists lt rt la ra on off,
           written st'
           = written st ++ [[0x09; 0x00; Seq._value (seq st); 9; 0x00; 0x0f;
                             lt; rt; la; ra; on; off; 0xff]]
           /\ seq st' = snd (Seq.value (seq st))
           /\ store_rumble st' = [lt; rt; la; ra; on; off]
           /\ store_rumble st' <> store_rumble st).
Proof.
  unfold on_input.
  destruct (parse_input data) as [[[inp numbers] values]|e];
    cbn [mbind result_bind]; [|discriminate].
  destruct values as [values|]; cbn [mbind result_bind]; [|discriminate].
  destruct (derive_rumble values) as [[rumble on] off].
  cbn [store_rumble].
  destruct (bool_decide_reflect (rumble ++ [on; off] ≠ store_rumble st))
    as [Hne|_].
  - destruct rumble as [|lt [|rt [|la [|ra [|]]]]];
      cbn [mbind result_bind]; try discriminate.
    unfold make_gip_rumble_packet, Seq.__int__, Seq.value, epo_write.
    cbn [mbind result_bind seq length insert list_insert].
    destruct (forallb fits_byte _); cbn [mbind result_bind];
      [|discriminate].
    match goal with
    | |- context [exit_pressed data ?s] => destruct (exit_pressed data s)
    end; cbn [mbind result_bind]; [|discriminate].
    intros [= <-]. cbn. split; [reflexivity|]. split; [reflexivity|].
    right. exists lt, rt, la, ra, on, off.
    split; [reflexivity|]. split; [reflexivity|]. split; [reflexivity|].
    exact Hne.
  - cbn [mbind result_bind].
    match goal with
    | |- context [exit_pressed data ?s] => destruct (exit_pressed data s)
    end; cbn [mbind result_bind]; [|discriminate].
    intros [= <-]. cbn. split; [reflexivity|]. split; [reflexivity|].
    left. auto.
Qed.

(** X13: a timeout, and every report that is no INPUT report (ignored,
    SYSTEM or dumped), leaves the packets written, the sequence counter,
    the hold timer, the stored rumble parameters and the decoded buttons
    and numbers as they are. *)
Theorem other_reports_change_display_only (now : Z) (r : read_outcome)
    (st st' : Session) :
  not_input r -> loop_body now r st = Ok st' ->
  written st' = written st /\ seq st' = seq st
  /\ exit_start st' = exit_start st /\ store_rumble st' = store_rumble st
  /\ store_buttons st' = store_buttons st
  /\ store_numbers st' = store_numbers st.
Proof.
  destruct r as [|data]; cbn [not_input loop_body].
  { intros _ [= <-]. auto 10. }
  intros Hnot. destruct (getitem data 0) as [d0|e] eqn:H0;
    cbn [mbind result_bind]; [|discriminate].
  apply getitem_ok_lookup in H0.
  destruct (d0 =? 0x03); [intros [= <-]; auto 10|].
  destruct (d0 =? 0x07).
  { destruct (getitem data 4) as [d4|e]; cbn [mbind result_bind];
      [|discriminate].
    intros [= <-]. cbn. auto 10. }
  destruct (Z.eqb_spec d0 0x20) as [->|_]; [contradiction|].
  intros [= <-]. cbn. auto 10.
Qed.

Lemma other_reports_change_display_only_witness :
  (not_input (Data [0x03]) /\ loop_body 0 (Data [0x03]) idle_session
                              = Ok idle_session)
  /\ written idle_session = written idle_session
  /\ seq idle_session = seq idle_session
  /\ exit_start idle_session = exit_start idle_session
  /\ store_rumble idle_session = store_rumble idle_session
  /\ store_buttons idle_session = store_buttons idle_session
  /\ store_numbers idle_session = store_numbers idle_session.
Proof.
  assert (not_input (Data [0x03])) as H1 by (cbn; discriminate).
  assert (loop_body 0 (Data [0x03]) idle_session = Ok idle_session) as H2
    by reflexivity.
  split; [auto|].
  exact (other_reports_change_display_only 0 _ _ _ H1 H2).
Defined.

(** The parameters derived from a report whose triggers are not negative
    are bytes. *)
Lemma derive_rumble_bytes (data : list Z) :
  0 <= axis_at data 6 -> 0 <= axis_at data 8 ->
  exists lt rt la ra on off,
    derive_rumble (axes_of data) = ([lt; rt; la; ra], on, off)
    /\ Forall is_byte [lt; rt; la; ra; on; off].
Proof.
  intros Hl Hr. eexists _, _, _, _, _, _. split; [reflexivity|].
  pose proof (to_signed_16_range
                (Z.lor (byte_at data 6) (Z.shiftl (byte_at data 7) 8))) as Hlt.
  pose proof (to_signed_16_range
                (Z.lor (byte_at data 8) (Z.shiftl (byte_at data 9) 8))) as Hrt.
  fold (axis_at data 6) in Hlt. fold (axis_at data 8) in Hrt.
  unfold int16 in Hlt, Hrt.
  assert (0 <= axis_at data 6 / 4) by (apply Z.div_pos; lia).
  assert (0 <= axis_at data 8 / 4) by (apply Z.div_pos; lia).
  unfold is_byte.
  repeat (apply List.Forall_cons; [lia|]). apply List.Forall_nil.
Qed.

(** An INPUT report whose triggers are not negative, in a session whose
    counter is a byte, is processed without error. *)
Lemma on_input_accepted (now : Z) (data : list Z) (st : Session) :
  (35 <= length data)%nat -> data !! 0%nat = Some 0x20 ->
  is_byte (Seq._value (seq st)) ->
  0 <= axis_at data 6 -> 0 <= axis_at data 8 ->
  exists lt rt la ra on off st',
    derive_rumble (axes_of data) = ([lt; rt; la; ra], on, off)
    /\ on_input now data st = Ok st'
    /\ store_rumble st' = [lt; rt; la; ra; on; off].
Proof.
  intros Hlen H0 Hseq Hl Hr.
  pose proof (getitem_lookup data 0 _ H0) as Hg.
  change (Z.of_nat 0) with 0 in Hg.
  destruct (on_input_rumble now data st Hlen Hg)
    as (inp & numbers & values & lt & rt & la & ra & on & off
        & Hp & Hd & Hcase).
  rewrite parse_input_formula in Hp by assumption.
  injection Hp as _ _ <-.
  destruct (derive_rumble_bytes data Hl Hr)
    as (lt' & rt' & la' & ra' & on' & off' & Hd' & Hbytes).
  rewrite Hd in Hd'. injection Hd' as <- <- <- <- <- <-.
  exists lt, rt, la, ra, on, off.
  assert (forallb fits_byte
            [0x09; 0x00; Seq._value (seq st); 9; 0x00; 0x0f;
             lt; rt; la; ra; on; off; 0xff] = true) as Hfit.
  { apply forallb_fits_byte.
    do 2 (apply List.Forall_cons; [unfold is_byte; lia|]).
    apply List.Forall_cons; [exact Hseq|].
    do 3 (apply List.Forall_cons; [unfold is_byte; lia|]).
    refine (Forall_app_2 _ [lt; rt; la; ra; on; off] [0xff] Hbytes _).
    apply List.Forall_cons; [unfold is_byte; lia | apply List.Forall_nil]. }
  rewrite Hfit, andb_false_r in Hcase.
  destruct Hcase as (st' & Hin & Hst & _). eauto 10.
Qed.

(** X14: while no hold timer runs, a full INPUT report whose trigger
    readings are not negative, in a session whose sequence counter is a
    byte, is processed without error and starts the timer at the current
    clock reading exactly when bit 2 (START) or bit 3 (SELECT) of byte 4
    is set; otherwise the timer stays off. *)
Theorem input_report_starts_timer (now : Z) (data : list Z) (st : Session) :
  (35 <= length data)%nat -> data !! 0%nat = Some 0x20 ->
  is_byte (Seq._value (seq st)) ->
  0 <= axis_at data 6 -> 0 <= axis_at data 8 ->
  exit_start st < 0 ->
  exists st',
    loop_body now (Data data) st = Ok st'
    /\ exit_start st'
       = if Z.land (byte_at data 4) 0x0c =? 0 then -1 else now.
Proof.
  intros Hlen H0 Hseq Hl Hr Hidle.
  destruct (on_input_accepted now data st Hlen H0 Hseq Hl Hr)
    as (_ & _ & _ & _ & _ & _ & st1 & _ & Hin & _).
  exists (render st1). rewrite loop_body_input, Hin by assumption.
  split; [reflexivity|]. cbn [render print exit_start].
  apply (on_input_starts_timer now (byte_at data 4) data st);
    [assumption | | assumption].
  apply (getitem_byte_at data 4). lia.
Qed.

Lemma input_report_starts_timer_witness :
  ((35 <= length held_report)%nat /\ held_report !! 0%nat = Some 0x20
   /\ is_byte (Seq._value (seq idle_session))
   /\ 0 <= axis_at held_report 6 /\ 0 <= axis_at held_report 8
   /\ exit_start idle_session < 0)
  /\ exists st',
       loop_body 1000 (Data held_report) idle_session = Ok st'
       /\ exit_start st' = 1000.
Proof.
  assert (35 <= length held_report)%nat as H1 by (cbn; lia).
  assert (held_report !! 0%nat = Some 0x20) as H2 by reflexivity.
  assert (is_byte (Seq._value (seq idle_session))) as H3
    by (unfold is_byte; cbn; lia).
  assert (0 <= axis_at held_report 6) as H4 by (change (0 <= 0); lia).
  assert (0 <= axis_at held_report 8) as H5 by (change (0 <= 0); lia).
  assert (exit_start idle_session < 0) as H6 by (cbn; lia).
  split; [auto 10|].
  exact (input_report_starts_timer 1000 held_report idle_session
           H1 H2 H3 H4 H5 H6).
Defined.

(** X15: a full INPUT report whose trigger readings are not negative, in
    a session whose sequence counter is a byte, is processed without
    error; the rumble parameters derived from its axes are bytes and
    become the stored ones, and a rumble packet is written exactly when
    they differ from the ones stored before: the 13 bytes
    [0x09, 0x00, seq, 9, 0x00, 0x0f], the four motor values, [on], [off],
    [0xff], with the counter advanced by one. *)
Theorem input_report_rumble (now : Z) (data : list Z) (st : Session) :
  (35 <= length data)%nat -> data !! 0%nat = Some 0x20 ->
  is_byte (Seq._value (seq st)) ->
  0 <= axis_at data 6 -> 0 <= axis_at data 8 ->
  exists st' rumble on off,
    derive_rumble (axes_of data) = (rumble, on, off)
    /\ Forall is_byte (rumble ++ [on; off])
    /\ loop_body now (Data data) st = Ok st'
    /\ store_rumble st' = rumble ++ [on; off]
    /\ if bool_decide (rumble ++ [on; off] = store_rumble st)
       then written st' = written st /\ seq st' = seq st
       else written st'
            = written st
              ++ [[0x09; 0x00; Seq._value (seq st); 9; 0x00; 0x0f]
                  ++ rumble ++ [on; off; 0xff]]
            /\ seq st' = snd (Seq.value (seq st)).
Proof.
  intros Hlen H0 Hseq Hl Hr.
  destruct (on_input_accepted now data st Hlen H0 Hseq Hl Hr)
    as (lt & rt & la & ra & on & off & st1 & Hd & Hin & Hst).
  destruct (derive_rumble_bytes data Hl Hr)
    as (lt' & rt' & la' & ra' & on' & off' & Hd' & Hbytes).
  rewrite Hd in Hd'. injection Hd' as <- <- <- <- <- <-.
  exists (render st1), [lt; rt; la; ra], on, off.
  split; [exact Hd|]. split; [exact Hbytes|].
  rewrite loop_body_input, Hin by assumption.
  split; [reflexivity|]. cbn [render print store_rumble written seq app].
  split; [exact Hst|].
  destruct (on_input_effect _ _ _ _ Hin) as (_ & _ & Heff).
  destruct (bool_decide_reflect
              ([lt; rt; la; ra; on; off] = store_rumble st)) as [Heq|Hne].
  - destruct Heff as [(Hw' & Hs' & _)|(? & ? & ? & ? & ? & ? & _ & _ & _ & Hne)];
      [auto|]. rewrite Hst in Hne. contradiction.
  - destruct Heff as [(_ & _ & Hr')|(? & ? & ? & ? & ? & ? & Hw' & Hs' & Hr' & _)].
    + rewrite Hst in Hr'. contradiction.
    + rewrite Hst in Hr'. injection Hr' as <- <- <- <- <- <-. auto.
Qed.

Lemma input_report_rumble_witness :
  ((35 <= length held_report)%nat /\ held_report !! 0%nat = Some 0x20
   /\ is_byte (Seq._value (seq idle_session))
   /\ 0 <= axis_at held_report 6 /\ 0 <= axis_at held_report 8)
  /\ exists st' rumble on off,
       derive_rumble (axes_of held_report) = (rumble, on, off)
       /\ loop_body 0 (Data held_report) idle_session = Ok st'
       /\ store_rumble st' = rumble ++ [on; off].
Proof.
  assert (35 <= length held_report)%nat as H1 by (cbn; lia).
  assert (held_report !! 0%nat = Some 0x20) as H2 by reflexivity.
  assert (is_byte (Seq._value (seq idle_session))) as H3
    by (unfold is_byte; cbn; lia).
  assert (0 <= axis_at held_report 6) as H4 by (change (0 <= 0); lia).
  assert (0 <= axis_at held_report 8) as H5 by (change (0 <= 0); lia).
  split; [auto 10|].
  destruct (input_report_rumble 0 held_report idle_session H1 H2 H3 H4 H5)
    as (st' & rumble & on & off & Hd & _ & Hl & Hs & _).
  exists st', rumble, on, off. auto.
Defined.

(** X16: when the same full INPUT report, with trigger readings that are
    not negative, is processed twice in a row from a session whose
    sequence counter is a byte, both times return and the second time
    writes no packet and leaves the sequence counter alone. *)
Theorem repeated_report_writes_nothing (now now' : Z) (data : list Z)
    (st : Session) :
  (35 <= length data)%nat -> data !! 0%nat = Some 0x20 ->
  is_byte (Seq._value (seq st)) ->
  0 <= axis_at data 6 -> 0 <= axis_at data 8 ->
  exists st1 st2,
    loop_body now (Data data) st = Ok st1
    /\ loop_body now' (Data data) st1 = Ok st2
    /\ written st2 = written st1 /\ seq st2 = seq st1
    /\ store_rumble st2 = store_rumble st1.
Proof.
  intros Hlen H0 Hseq Hl Hr.
  pose proof (getitem_lookup data 0 _ H0) as Hg.
  change (Z.of_nat 0) with 0 in Hg.
  destruct (on_input_accepted now data st Hlen H0 Hseq Hl Hr)
    as (lt & rt & la & ra & on & off & st1 & Hd & Hin & Hst).
  destruct (on_input_rumble now' data (render st1) Hlen Hg)
    as (inp' & numbers' & values' & lt' & rt' & la' & ra' & on' & off'
        & Hp' & Hd' & Hcase).
  rewrite parse_input_formula in Hp' by assumption.
  injection Hp' as _ _ <-.
  rewrite Hd in Hd'. injection Hd' as <- <- <- <- <- <-.
  cbn [render print store_rumble] in Hcase. rewrite Hst in Hcase.
  rewrite (bool_decide_eq_false_2
             ([lt; rt; la; ra; on; off] ≠ [lt; rt; la; ra; on; off]))
    in Hcase by (intros Hne; now apply Hne).
  cbn [andb] in Hcase. destruct Hcase as (st2 & Hin' & Hst' & Hw').
  exists (render st1), (render st2).
  rewrite !loop_body_input, Hin by assumption. cbn [mbind result_bind].
  split; [reflexivity|]. rewrite Hin'. split; [reflexivity|].
  cbn [render print written seq store_rumble].
  destruct (on_input_effect _ _ _ _ Hin') as (_ & _ & Heff).
  cbn [render print written seq store_rumble] in Heff.
  destruct Heff as [?|(? & ? & ? & ? & ? & ? & _ & _ & _ & Hne)]; [tauto|].
  rewrite Hst, Hst' in Hne. contradiction.
Qed.

Lemma repeated_report_writes_nothing_witness :
  ((35 <= length held_report)%nat /\ held_report !! 0%nat = Some 0x20
   /\ is_byte (Seq._value (seq idle_session))
   /\ 0 <= axis_at held_report 6 /\ 0 <= axis_at held_report 8)
  /\ exists st1 st2,
       loop_body 0 (Data held_report) idle_session = Ok st1
       /\ loop_body 10 (Data held_report) st1 = Ok st2
       /\ written st2 = written st1 /\ seq st2 = seq st1
       /\ store_rumble st2 = store_rumble st1.
Proof.
  assert (35 <= length held_report)%nat as H1 by (cbn; lia).
  assert (held_report !! 0%nat = Some 0x20) as H2 by reflexivity.
  assert (is_byte (Seq._value (seq idle_session))) as H3
    by (unfold is_byte; cbn; lia).
  assert (0 <= axis_at held_report 6) as H4 by (change (0 <= 0); lia).
  assert (0 <= axis_at held_report 8) as H5 by (change (0 <= 0); lia).
  split; [auto 10|].
  exact (repeated_report_writes_nothing 0 10 held_report idle_session
           H1 H2 H3 H4 H5).
Defined.

(** X26: a full INPUT report in which a trigger reads negative (bit 15
    of the reading set) is not processed: the derived [on] value is above
    255 or the [off] value is negative, they differ from the stored
    parameters, which are bytes, and the write of the rumble packet
    raises [OverflowError]. *)
Theorem negative_trigger_raises (now : Z) (data : list Z) (st : Session) :
  (35 <= length data)%nat -> data !! 0%nat = Some 0x20 ->
  Forall is_byte (store_rumble st) ->
  axis_at data 6 < 0 \/ axis_at data 8 < 0 ->
  loop_body now (Data data) st = Raise OverflowError.
Proof.
  intros Hlen H0 Hstore Hneg.
  pose proof (getitem_lookup data 0 _ H0) as Hg.
  change (Z.of_nat 0) with 0 in Hg.
  destruct (on_input_rumble now data st Hlen Hg)
    as (inp & numbers & values & lt & rt & la & ra & on & off
        & Hp & Hd & Hcase).
  rewrite parse_input_formula in Hp by assumption.
  injection Hp as _ _ <-.
  cbn [derive_rumble axes_of map] in Hd.
  injection Hd as <- <- <- <- <- <-.
  set (on := 255 - Z.min (axis_at data 6 / 4) 255) in *.
  set (off := Z.min (axis_at data 8 / 4) 255) in *.
  assert (~ (is_byte on /\ is_byte off)) as Hbad.
  { unfold is_byte, on, off. destruct Hneg as [Hl|Hr].
    - assert (axis_at data 6 / 4 < 0)
        by (apply Z.div_lt_upper_bound; lia). lia.
    - assert (axis_at data 8 / 4 < 0)
        by (apply Z.div_lt_upper_bound; lia). lia. }
  rewrite loop_body_input by assumption.
  rewrite bool_decide_eq_true_2 in Hcase.
  2: { intros Heq. rewrite <- Heq in Hstore. apply Hbad.
       split; [eapply (Forall_lookup_1 _ _ 4) | eapply (Forall_lookup_1 _ _ 5)];
         first [exact Hstore | reflexivity]. }
  destruct (forallb fits_byte _) eqn:Hfit in Hcase.
  - exfalso. apply forallb_fits_byte in Hfit. apply Hbad.
    split; [eapply (Forall_lookup_1 _ _ 10) | eapply (Forall_lookup_1 _ _ 11)];
      first [exact Hfit | reflexivity].
  - cbn [andb negb] in Hcase. now rewrite Hcase.
Qed.

Lemma negative_trigger_raises_witness :
  ((35 <= length negative_trigger_report)%nat
   /\ negative_trigger_report !! 0%nat = Some 0x20
   /\ Forall is_byte (store_rumble idle_session)
   /\ (axis_at negative_trigger_report 6 < 0
       \/ axis_at negative_trigger_report 8 < 0))
  /\ loop_body 0 (Data negative_trigger_report) idle_session
     = Raise OverflowError.
Proof.
  assert (35 <= length negative_trigger_report)%nat as H1 by (cbn; lia).
  assert (negative_trigger_report !! 0%nat = Some 0x20) as H2
    by reflexivity.
  assert (Forall is_byte (store_rumble idle_session)) as H3
    by apply List.Forall_nil.
  assert (axis_at negative_trigger_report 6 < 0
          \/ axis_at negative_trigger_report 8 < 0) as H4
    by (left; change (-4 < 0); lia).
  split; [auto|].
  exact (negative_trigger_raises 0 negative_trigger_report idle_session
           H1 H2 H3 H4).
Defined.

(** X17: the loop body raises [IndexError] on an empty read, on a SYSTEM
    report of fewer than 5 bytes and on an INPUT report of fewer than 35
    bytes. *)
Theorem loop_body_raises_on_short_reports (now : Z) (st : Session)
    (rest : list Z) :
  loop_body now (Data []) st = Raise IndexError
  /\ loop_body now (Data (0x07 :: take 3 rest)) st = Raise IndexError
  /\ loop_body now (Data (0x20 :: take 33 rest)) st = Raise IndexError.
Proof.
  split; [reflexivity|]. split.
  - unfold loop_body.
    pose proof (getitem_lookup (0x07 :: take 3 rest) 0 _ eq_refl) as Hg.
    change (Z.of_nat 0) with 0 in Hg. rewrite Hg. cbn [mbind result_bind].
    change (0x07 =? 0x03) with false. change (0x07 =? 0x07) with true.
    cbv iota. rewrite getitem_past_end; [reflexivity|].
    cbn [length]. rewrite length_take. lia.
  - rewrite loop_body_input by reflexivity. unfold on_input.
    rewrite parse_input_short_report; [reflexivity | |].
    + apply (getitem_lookup _ 0). reflexivity.
    + cbn [length]. rewrite length_take. lia.
Qed.

(** ** What the loop as a whole does *)

Lemma loop_body_cases (now : Z) (r : read_outcome) (st st' : Session) :
  loop_body now r st = Ok st' ->
  (written st' = written st /\ seq st' = seq st
   /\ exit_start st' = exit_start st)
  \/ exists data st1,
       r = Data data /\ on_input now data st = Ok st1 /\ st' = render st1.
Proof.
  destruct r as [|data]; cbn [loop_body].
  { intros [= <-]. auto. }
  destruct (getitem data 0) as [d0|e]; cbn [mbind result_bind];
    [|discriminate].
  destruct (d0 =? 0x03); [intros [= <-]; auto|].
  destruct (d0 =? 0x07).
  { destruct (getitem data 4) as [d4|e]; cbn [mbind result_bind];
      [|discriminate].
    intros [= <-]. cbn. auto. }
  destruct (d0 =? 0x20).
  - destruct (on_input now data st) as [st1|e] eqn:Hin;
      cbn [mbind result_bind]; [|discriminate].
    intros [= <-]. right. eauto.
  - intros [= <-]. cbn. auto.
Qed.

Lemma on_input_exit (now : Z) (data : list Z) (st st' : Session) :
  on_input now data st = Ok st' ->
  exists c, exit_pressed data st = Ok c
            /\ exit_start st' = if c then now else -1.
Proof.
  assert (forall s, exit_start s = exit_start st ->
            exit_pressed data s = exit_pressed data st) as Hext.
  { intros s Hs. unfold exit_pressed. now rewrite Hs. }
  unfold on_input.
  destruct (parse_input data) as [[[inp numbers] values]|e];
    cbn [mbind result_bind]; [|discriminate].
  destruct values as [values|]; cbn [mbind result_bind]; [|discriminate].
  destruct (derive_rumble values) as [[rumble on] off].
  destruct (bool_decide _).
  - destruct rumble as [|lt [|rt [|la [|ra [|]]]]];
      cbn [mbind result_bind]; try discriminate.
    destruct (make_gip_rumble_packet _ _ _ _ _ _ _ _) as [pkt seq'].
    destruct (epo_write pkt _) as [sw|e] eqn:Hw; cbn [mbind result_bind];
      [|discriminate].
    apply epo_write_Ok in Hw as [_ ->]. rewrite Hext by reflexivity.
    destruct (exit_pressed data st) as [c|e]; cbn [mbind result_bind];
      [|discriminate].
    intros [= <-]. exists c. auto.
  - cbn [mbind result_bind]. rewrite Hext by reflexivity.
    destruct (exit_pressed data st) as [c|e]; cbn [mbind result_bind];
      [|discriminate].
    intros [= <-]. exists c. auto.
Qed.

Lemma exit_pressed_unpressed (data : list Z) (st : Session) (c : bool) :
  Z.land (byte_at data 4) 0x0c = 0 -> exit_pressed data st = Ok c ->
  c = false.
Proof.
  intros Hbits. unfold exit_pressed.
  destruct (exit_start st <? 0); [|now intros [= <-]].
  destruct (Z.geb_spec (Z.of_nat (length data)) 5); [|now intros [= <-]].
  rewrite (getitem_byte_at data 4) by lia. cbn [mbind result_bind].
  change (Z.to_nat 4) with 4%nat. intros [= <-].
  change 0x0c with (Z.lor 0x04 0x08) in Hbits.
  rewrite Z.land_lor_distr_r in Hbits.
  apply Z.lor_eq_0_iff in Hbits as [-> ->]. reflexivity.
Qed.

(** X18: as long as no INPUT report has bit 2 or bit 3 of its byte 4 set,
    the loop does not end: from a session whose hold timer is off, any run
    that raises nothing is still in the loop afterwards, with the timer
    off. *)
Theorem no_exit_without_buttons (turns : list turn) (st st' : Session)
    (ph : phase) :
  exit_start st < 0 -> never_pressed turns ->
  main_loop turns st = Ok (ph, st') ->
  ph = Running /\ exit_start st' < 0.
Proof.
  revert st. induction turns as [|tn turns IH]; intros st Hidle Hnever.
  { intros [= <- <-]. auto. }
  apply List.Forall_cons_iff in Hnever as [Htn Hnever].
  cbn [main_loop]. unfold loop_cond.
  destruct (Z.ltb_spec (exit_start st) 0); [|lia]. cbn [orb].
  destruct (loop_body (t_body tn) (t_read tn) st) as [st1|e] eqn:Hbody;
    cbn [mbind result_bind]; [|discriminate].
  apply IH; [|assumption].
  destruct (loop_body_cases _ _ _ _ Hbody)
    as [(_ & _ & ->)|(data & st2 & Hr & Hin & ->)]; [assumption|].
  rewrite Hr in Htn.
  destruct (on_input_exit _ _ _ _ Hin) as (c & Hc & Hexit).
  apply (exit_pressed_unpressed _ _ _ Htn) in Hc. subst c.
  cbn [render print exit_start]. lia.
Qed.

Lemma no_exit_without_buttons_witness :
  (exit_start idle_session < 0
   /\ never_pressed [mkTurn 0 USBTimeoutError 0; mkTurn 5000 (Data [0x03]) 0]
   /\ main_loop [mkTurn 0 USBTimeoutError 0; mkTurn 5000 (Data [0x03]) 0]
        idle_session = Ok (Running, idle_session))
  /\ Running = Running /\ exit_start idle_session < 0.
Proof.
  assert (exit_start idle_session < 0) as H1 by (cbn; lia).
  assert (never_pressed
            [mkTurn 0 USBTimeoutError 0; mkTurn 5000 (Data [0x03]) 0]) as H2
    by (repeat (apply List.Forall_cons; [cbn; auto|]); apply List.Forall_nil).
  assert (main_loop [mkTurn 0 USBTimeoutError 0; mkTurn 5000 (Data [0x03]) 0]
            idle_session = Ok (Running, idle_session)) as H3 by reflexivity.
  split; [auto|].
  exact (no_exit_without_buttons _ _ _ _ H1 H2 H3).
Defined.

Lemma drain_Ok (st st' : Session) :
  drain st = Ok st' ->
  st' = mkSession (snd (Seq.value (seq st))) (store_buttons st)
          (store_system st) (store_numbers st) (store_rumble st)
          (exit_start st)
          (written st ++ [stop_packet (Seq._value (seq st))])
          (printed st ++ [(LF ++ "Done" ++ LF)%string]).
Proof.
  unfold drain, make_gip_rumble_packet, Seq.__int__, Seq.value.
  cbn [length insert list_insert].
  destruct (epo_write _ st) as [sw|e] eqn:Hw; cbn [mbind result_bind];
    [|discriminate].
  apply epo_write_Ok in Hw as [_ ->]. intros [= <-]. reflexivity.
Qed.

(** X19: when the loop ends, the hold timer was running and the loop
    condition was tested 2000 ms or more after it was started; the last
    packet written is the rumble packet that stops all motors, with the
    next sequence number, and the last text printed is "Done". *)
Theorem exit_writes_stop_packet (turns : list turn) (st st' : Session) :
  main_loop turns st = Ok (Exited, st') ->
  exists st_end tn,
    In tn turns
    /\ 0 <= exit_start st_end /\ 2000 <= t_cond tn - exit_start st_end
    /\ exit_start st' = exit_start st_end
    /\ written st'
       = written st_end ++ [stop_packet (Seq._value (seq st_end))]
    /\ seq st' = snd (Seq.value (seq st_end))
    /\ printed st' = printed st_end ++ [(LF ++ "Done" ++ LF)%string].
Proof.
  revert st. induction turns as [|tn turns IH]; intros st; [discriminate|].
  cbn [main_loop]. unfold loop_cond.
  destruct (Z.ltb_spec (exit_start st) 0) as [Hoff|Hon]; cbn [orb].
  - destruct (loop_body _ _ st) as [st1|e]; cbn [mbind result_bind];
      [|discriminate].
    intros Hrest. destruct (IH _ Hrest) as (st_end & tn' & Hin & Hrest').
    exists st_end, tn'. split; [now right | exact Hrest'].
  - destruct (Z.ltb_spec (t_cond tn - exit_start st) 2000) as [Hlt|Hge].
    + destruct (loop_body _ _ st) as [st1|e]; cbn [mbind result_bind];
        [|discriminate].
      intros Hrest. destruct (IH _ Hrest) as (st_end & tn' & Hin & Hrest').
      exists st_end, tn'. split; [now right | exact Hrest'].
    + destruct (drain st) as [sd|e] eqn:Hdrain; cbn [mbind result_bind];
        [|discriminate].
      intros [= <-]. apply drain_Ok in Hdrain as ->.
      exists st, tn. split; [now left|].
      split; [assumption|]. split; [assumption|].
      cbn. auto.
Qed.

Lemma exit_writes_stop_packet_witness :
  main_loop [mkTurn 5000 USBTimeoutError 5000] (timer_started 1000 idle_session)
  = Ok (Exited, stopped_session)
  /\ exists st_end tn,
       In tn [mkTurn 5000 USBTimeoutError 5000]
       /\ 0 <= exit_start st_end /\ 2000 <= t_cond tn - exit_start st_end
       /\ exit_start stopped_session = exit_start st_end
       /\ written stopped_session
          = written st_end ++ [stop_packet (Seq._value (seq st_end))]
       /\ seq stopped_session = snd (Seq.value (seq st_end))
       /\ printed stopped_session
          = printed st_end ++ [(LF ++ "Done" ++ LF)%string].
Proof.
  assert (main_loop [mkTurn 5000 USBTimeoutError 5000]
            (timer_started 1000 idle_session)
          = Ok (Exited, stopped_session)) as H
    by (vm_compute; reflexivity).
  split; [exact H|].
  exact (exit_writes_stop_packet _ _ _ H).
Defined.

(** ** The packets of a session *)

Lemma packets_numbered_append (st st' : Session) (pkt : list Z) :
  packets_numbered st ->
  written st' = written st ++ [pkt] ->
  seq st' = snd (Seq.value (seq st)) ->
  pkt !! 2%nat = Some (Seq._value (seq st)) ->
  pkt !! 3%nat = Some (Z.of_nat (length pkt) - 4) ->
  packets_numbered st'.
Proof.
  intros [Hseq Hpk] Hw Hs H2 H3. unfold packets_numbered.
  rewrite Hw, Hs, length_app. cbn [length Seq.value snd Seq._value]. split.
  - rewrite land_0xff, Hseq, Zplus_mod_idemp_l. f_equal. lia.
  - intros i p Hi. apply lookup_snoc_Some in Hi as [[Hlt Hi]|[-> ->]].
    + now apply Hpk.
    + now rewrite H2, Hseq.
Qed.

Lemma packets_numbered_same (st st' : Session) :
  packets_numbered st -> written st' = written st -> seq st' = seq st ->
  packets_numbered st'.
Proof. unfold packets_numbered. now intros H -> ->. Qed.

Lemma loop_body_packets_numbered (now : Z) (r : read_outcome)
    (st st' : Session) :
  packets_numbered st -> loop_body now r st = Ok st' -> packets_numbered st'.
Proof.
  intros Hinv Hbody.
  destruct (loop_body_cases _ _ _ _ Hbody)
    as [(Hw & Hs & _)|(data & st1 & _ & Hin & ->)].
  { now apply (packets_numbered_same st). }
  destruct (on_input_effect _ _ _ _ Hin)
    as (_ & _ & [(Hw & Hs & _)|(lt & rt & la & ra & on & off
                                 & Hw & Hs & _)]).
  - now apply (packets_numbered_same st).
  - eapply (packets_numbered_append st); [assumption | exact Hw | exact Hs |..];
      reflexivity.
Qed.

(** X20: in every run of the session from the start of [main], whatever
    is read and whenever, the packets written carry the sequence bytes
    0, 1, 2, ... modulo 256 in the order they are written, each has its
    length minus 4 at index 3, and the counter holds the number of the
    next packet. *)
Theorem session_packets_numbered (turns : list turn) (ph : phase)
    (st' : Session) :
  (st ← main_init; main_loop turns st) = Ok (ph, st') ->
  packets_numbered st'.
Proof.
  destruct main_init as [st0|e] eqn:Hinit; [|discriminate].
  assert (packets_numbered st0) as Hinv.
  { vm_compute in Hinit. injection Hinit as <-. split; [reflexivity|].
    intros [|[|i]] pkt; cbn; intros [= <-]; split; reflexivity. }
  clear Hinit. cbn [mbind result_bind]. revert st0 Hinv.
  induction turns as [|tn turns IH]; intros st Hinv.
  { now intros [= <- <-]. }
  cbn [main_loop]. destruct (loop_cond (t_cond tn) st).
  - destruct (loop_body _ _ st) as [st1|e] eqn:Hbody;
      cbn [mbind result_bind]; [|discriminate].
    apply IH. exact (loop_body_packets_numbered _ _ _ _ Hinv Hbody).
  - destruct (drain st) as [sd|e] eqn:Hdrain; cbn [mbind result_bind];
      [|discriminate].
    intros [= <- <-]. apply drain_Ok in Hdrain as ->.
    apply (packets_numbered_append st _ (stop_packet (Seq._value (seq st))));
      [assumption | reflexivity..].
Qed.

Lemma session_packets_numbered_witness :
  (st ← main_init; main_loop first_hold st) = Ok after_first_hold
  /\ packets_numbered (snd after_first_hold).
Proof.
  assert ((st ← main_init; main_loop first_hold st)
          = Ok (fst after_first_hold, snd after_first_hold)) as H
    by (vm_compute; reflexivity).
  split; [exact H|].
  exact (session_packets_numbered first_hold _ _ H).
Defined.

(** ** The bytes of a rumble packet *)

(** X21: for axes of the signed 16-bit range and a counter in 0-255, the
    rumble packet built from the derived parameters holds only values
    0-255 when both triggers are not negative.  A negative left trigger
    gives an [on] value above 255 and a negative right trigger a negative
    [off] value: neither fits a byte. *)
Theorem rumble_packet_bytes (lx ly rx ry lt rt : Z) (seq : Seq.t) :
  int16 lx -> int16 ly -> int16 rx -> int16 ry -> int16 lt -> int16 rt ->
  is_byte (Seq._value seq) ->
  exists a b c d on off,
    derive_rumble (lx, ly, rx, ry, lt, rt) = ([a; b; c; d], on, off)
    /\ (0 <= lt -> 0 <= rt ->
        Forall is_byte
          (fst (make_gip_rumble_packet a b c d seq on off default_repeat)))
    /\ (lt < 0 -> 255 < on)
    /\ (rt < 0 -> off < 0).
Proof.
  unfold int16, is_byte. intros Hlx Hly Hrx Hry Hlt Hrt Hseq.
  eexists _, _, _, _, _, _. split; [reflexivity|].
  assert (forall v, 0 <= Z.min (Z.abs (v / 128)) 255 <= 255) as Hm
    by (intros v; lia).
  split; [|split].
  - intros Hl Hr.
    assert (0 <= lt / 4) by (apply Z.div_pos; lia).
    assert (0 <= rt / 4) by (apply Z.div_pos; lia).
    cbn. unfold GIP_MOTOR_ALL, default_repeat.
    repeat (apply List.Forall_cons; [first [apply Hm | lia]|]).
    apply List.Forall_nil.
  - intros Hl. assert (lt / 4 < 0) by (apply Z.div_lt_upper_bound; lia). lia.
  - intros Hr. assert (rt / 4 < 0) by (apply Z.div_lt_upper_bound; lia). lia.
Qed.

Lemma rumble_packet_bytes_witness :
  (int16 (-129) /\ int16 32767 /\ int16 0 /\ int16 (-32768)
   /\ int16 1023 /\ int16 512 /\ is_byte (Seq._value Seq.__init__))
  /\ exists a b c d on off,
       derive_rumble (-129, 32767, 0, -32768, 1023, 512)
       = ([a; b; c; d], on, off)
       /\ (0 <= 1023 -> 0 <= 512 ->
           Forall is_byte
             (fst (make_gip_rumble_packet a b c d Seq.__init__ on off
                     default_repeat)))
       /\ (1023 < 0 -> 255 < on)
       /\ (512 < 0 -> off < 0).
Proof.
  assert (int16 (-129)) as H1 by (unfold int16; lia).
  assert (int16 32767) as H2 by (unfold int16; lia).
  assert (int16 0) as H3 by (unfold int16; lia).
  assert (int16 (-32768)) as H4 by (unfold int16; lia).
  assert (int16 1023) as H5 by (unfold int16; lia).
  assert (int16 512) as H6 by (unfold int16; lia).
  assert (is_byte (Seq._value Seq.__init__)) as H7
    by (unfold is_byte; cbn; lia).
  split; [auto 10|].
  exact (rumble_packet_bytes _ _ _ _ _ _ _ H1 H2 H3 H4 H5 H6 H7).
Defined.

(** X22: the motor value of a stick axis rounds towards minus infinity
    before the magnitude is taken: an axis that is not negative gives
    [axis / 128] rounded down, a negative axis gives its magnitude
    divided by 128 and rounded up, capped at 255. *)
Theorem motor_rounding (lx ly rx ry lt rt : Z) :
  int16 lx -> int16 ly -> int16 rx -> int16 ry ->
  let motor v := if 0 <=? v then v / 128
                 else Z.min ((- v + 127) / 128) 255 in
  fst (fst (derive_rumble (lx, ly, rx, ry, lt, rt)))
  = [motor lx; motor ly; motor rx; motor ry].
Proof.
  unfold int16. intros Hlx Hly Hrx Hry. cbn [derive_rumble map fst].
  assert (forall v, -32768 <= v <= 32767 ->
            Z.min (Z.abs (v / 128)) 255
            = if 0 <=? v then v / 128
              else Z.min ((- v + 127) / 128) 255) as Hm.
  { intros v Hv. destruct (Z.leb_spec 0 v).
    - assert (0 <= v / 128 < 256); [|lia].
      split; [apply Z.div_pos; lia|].
      apply Z.div_lt_upper_bound; lia.
    - f_equal. assert (v / 128 < 0) by (apply Z.div_lt_upper_bound; lia).
      rewrite Z.abs_neq by lia.
      pose proof (Z.div_mod v 128 ltac:(lia)) as Hd.
      pose proof (Z.mod_pos_bound v 128 ltac:(lia)) as Hr.
      apply (Z.div_unique _ _ _ (127 - v mod 128)); lia. }
  now rewrite !Hm by assumption.
Qed.

Lemma motor_rounding_witness :
  (int16 (-129) /\ int16 129 /\ int16 (-1) /\ int16 (-32768))
  /\ fst (fst (derive_rumble (-129, 129, -1, -32768, 0, 0)))
     = [2; 1; 1; 255].
Proof.
  assert (int16 (-129)) as H1 by (unfold int16; lia).
  assert (int16 129) as H2 by (unfold int16; lia).
  assert (int16 (-1)) as H3 by (unfold int16; lia).
  assert (int16 (-32768)) as H4 by (unfold int16; lia).
  split; [auto|].
  exact (motor_rounding (-129) 129 (-1) (-32768) 0 0 H1 H2 H3 H4).
Defined.

(** ** Before the loop *)

Lemma wait_for_device_from {Dev : Type} (n : nat) (tail : list (option Dev))
    (informed : bool) (out : list string) (sleeps : nat) :
  wait_for_device (replicate n None ++ tail) informed out sleeps
  = wait_for_device tail
      (informed || negb (n =? 0)%nat)
      (if informed || (n =? 0)%nat then out else out ++ [PLUG_HINT])
      (sleeps + n).
Proof.
  revert informed out sleeps. induction n as [|n IH]; intros informed out k.
  - cbn. rewrite orb_false_r, orb_true_r, Nat.add_0_r. reflexivity.
  - cbn [replicate app wait_for_device]. rewrite IH.
    cbn [orb Nat.eqb negb]. rewrite orb_true_r.
    replace (S k + n)%nat with (k + S n)%nat by lia.
    destruct informed; reflexivity.
Qed.

(** X23: when the device shows up after [n] unsuccessful polls, the wait
    returns that device after [n] sleeps; the hint to plug the game pad is
    printed once if [n] is not zero, however large, and not at all when
    the device is there at the first poll.  Later polls are not made. *)
Theorem wait_for_device_hint_once {Dev : Type} (n : nat) (dev : Dev)
    (later : list (option Dev)) :
  wait_for_device (replicate n None ++ Some dev :: later) false [] 0
  = (Some dev, negb (n =? 0)%nat,
     if (n =? 0)%nat then [] else [PLUG_HINT], n).
Proof.
  rewrite wait_for_device_from. cbn [wait_for_device orb app Nat.add].
  reflexivity.
Qed.

Section EndpointProperties.

Variable Endpoint : Type.
Variable bEndpointAddress : Endpoint -> Z.
Variable endpoint_direction : Z -> Z.
Variables ENDPOINT_IN ENDPOINT_OUT : Z.

Let dir (ep : Endpoint) : Z := endpoint_direction (bEndpointAddress ep).
Let sorted (ifce : list Endpoint) : ep_state Endpoint :=
  sort_endpoints Endpoint bEndpointAddress endpoint_direction
    ENDPOINT_IN ENDPOINT_OUT ifce.

Lemma sort_endpoints_snoc (ifce : list Endpoint) (ep : Endpoint) :
  sorted (ifce ++ [ep])
  = sort_endpoint Endpoint bEndpointAddress endpoint_direction
      ENDPOINT_IN ENDPOINT_OUT (sorted ifce) ep.
Proof. unfold sorted, sort_endpoints. now rewrite fold_left_app. Qed.

Lemma sort_endpoints_fold (ifce : list Endpoint) :
  epi (sorted ifce) = last (filter (fun ep => dir ep = ENDPOINT_IN) ifce)
  /\ epo (sorted ifce)
     = last (filter (fun ep => dir ep <> ENDPOINT_IN
                               /\ dir ep = ENDPOINT_OUT) ifce)
  /\ unknown (sorted ifce)
     = map (fun ep => (dir ep, ep))
         (filter (fun ep => dir ep <> ENDPOINT_IN
                            /\ dir ep <> ENDPOINT_OUT) ifce).
Proof.
  induction ifce as [|ep ifce (IHi & IHo & IHu)] using rev_ind.
  { auto. }
  rewrite sort_endpoints_snoc, !filter_app, map_app. unfold sort_endpoint.
  fold (dir ep). rewrite !filter_cons, !filter_nil.
  destruct (Z.eqb_spec (dir ep) ENDPOINT_IN) as [Hin|Hin].
  - cbn [epi epo unknown].
    rewrite decide_True, !decide_False by tauto.
    rewrite last_snoc, !app_nil_r. auto.
  - destruct (Z.eqb_spec (dir ep) ENDPOINT_OUT) as [Hout|Hout].
    + cbn [epi epo unknown].
      rewrite decide_False, decide_True, decide_False by tauto.
      rewrite last_snoc, !app_nil_r. auto.
    + cbn [epi epo unknown].
      rewrite !decide_False, decide_True by tauto.
      rewrite !app_nil_r, IHu. auto.
Qed.

Lemma last_filter_is_Some (P : Endpoint -> Prop)
    `{forall ep, Decision (P ep)} (l : list Endpoint) :
  is_Some (last (filter P l)) <-> Exists P l.
Proof.
  rewrite last_is_Some. split.
  - intros Hne. destruct (filter P l) as [|x l'] eqn:Hf; [contradiction|].
    assert (x ∈ filter P l) as Hx by (rewrite Hf; left).
    apply list_elem_of_filter in Hx as [HP Hx].
    apply Exists_exists. eauto.
  - intros (x & Hx & HP)%Exists_exists Hnil.
    assert (x ∈ filter P l) as Hin by now apply list_elem_of_filter.
    rewrite Hnil in Hin. now apply elem_of_nil in Hin.
Qed.

(** X24: when the endpoints are resolved, [epi] is the last endpoint of
    the interface whose direction is [ENDPOINT_IN] and [epo] the last one
    whose direction is [ENDPOINT_OUT] (and not [ENDPOINT_IN]); the
    endpoints of any other direction are reported, in order, with their
    direction. *)
Theorem resolve_endpoints_keeps_last (ifce : list Endpoint) :
  resolve_endpoints Endpoint bEndpointAddress endpoint_direction
    ENDPOINT_IN ENDPOINT_OUT ifce
  = match last (filter (fun ep => dir ep = ENDPOINT_IN) ifce),
          last (filter (fun ep => dir ep <> ENDPOINT_IN
                                  /\ dir ep = ENDPOINT_OUT) ifce) with
    | Some i, Some o => Some (i, o)
    | _, _ => None
    end
  /\ unknown (sorted ifce)
     = map (fun ep => (dir ep, ep))
         (filter (fun ep => dir ep <> ENDPOINT_IN
                            /\ dir ep <> ENDPOINT_OUT) ifce).
Proof.
  destruct (sort_endpoints_fold ifce) as (Hi & Ho & Hu).
  split; [|exact Hu].
  unfold resolve_endpoints. fold (sorted ifce). now rewrite Hi, Ho.
Qed.

(** X25: the endpoints are resolved exactly when the interface has an
    endpoint of direction [ENDPOINT_IN] and one of direction
    [ENDPOINT_OUT] (and not [ENDPOINT_IN]); otherwise [main] reports
    "Endpoint config not resolved" and returns. *)
Theorem resolve_endpoints_needs_both (ifce : list Endpoint) :
  is_Some (resolve_endpoints Endpoint bEndpointAddress endpoint_direction
             ENDPOINT_IN ENDPOINT_OUT ifce)
  <-> Exists (fun ep => dir ep = ENDPOINT_IN) ifce
      /\ Exists (fun ep => dir ep <> ENDPOINT_IN
                           /\ dir ep = ENDPOINT_OUT) ifce.
Proof.
  destruct (sort_endpoints_fold ifce) as (Hi & Ho & _).
  rewrite <- !last_filter_is_Some, <- Hi, <- Ho.
  unfold resolve_endpoints. fold (sorted ifce).
  destruct (epi (sorted ifce)) as [i|], (epo (sorted ifce)) as [o|]; split.
  - intros _. split; eauto.
  - intros _. eauto.
  - intros [x Hx]. discriminate.
  - intros [_ [x Hx]]. discriminate.
  - intros [x Hx]. discriminate.
  - intros [[x Hx] _]. discriminate.
  - intros [x Hx]. discriminate.
  - intros [[x Hx] _]. discriminate.
Qed.

End EndpointProperties.
